(** * The accounts service (services/users.service.js), embedded in Rocq

    The file holds two Moleculer service definitions: a thin [users]
    service (list, create) and the [accounts] service, which owns the
    credential records.  This development embeds the [accounts] service.

    The service is a Moleculer service definition whose action handlers are
    [async] functions over a document collection ([this.adapter]), a
    configuration snapshot ([this.config]), the process environment and a
    handful of libraries (bcrypt, jsonwebtoken, speakeasy, crypto).

    Handlers are embedded as computations in a state-and-exception monad
    over a [World] (the collection, the id allocator of the store, the
    entropy consumed so far and the mails handed to the mail service).
    A thrown error keeps the state reached so far, as a rejected promise
    keeps the writes already made. *)

From Stdlib Require Import ZArith List Bool Ascii String Lia.
From stdpp Require Import base option list strings gmap.

Local Open Scope string_scope.
Local Open Scope Z_scope.

(** ** JavaScript values the handlers depend on *)

(** A numeric field of a stored document: absent, [null], [NaN] or a
    number.  The expiry comparisons of the handlers tell them apart. *)
Inductive jsnum : Type :=
| JUndefined
| JNull
| JNaN
| JNum (z : Z).

(** [e < n] for a number [n]: [undefined] and [NaN] compare false,
    [null] converts to 0. *)
Definition js_lt (e : jsnum) (n : Z) : bool :=
  match e with
  | JUndefined => false
  | JNull => 0 <? n
  | JNaN => false
  | JNum z => z <? n
  end.

(** [Date.now() + Number(process.env.X)]: [Number(undefined)] is [NaN]. *)
Definition js_add_env (n : Z) (e : option Z) : jsnum :=
  match e with
  | Some d => JNum (n + d)
  | None => JNaN
  end.

(** Truthiness of an optional string parameter: [undefined] and the empty
    string are falsy. *)
Definition truthy (s : option string) : bool :=
  match s with
  | Some s => negb (bool_decide (s = EmptyString))
  | None => false
  end.

(** ** Documents of the accounts collection *)

Record Totp : Type := {
  totp_enabled : bool;
  totp_secret : option string
}.

Record Account : Type := {
  _id : nat;
  username : option string;
  email : string;
  firstName : string;
  lastName : string;
  avatar : option string;
  roles : list string;
  plan : string;
  socialLinks : gmap string string;
  createdAt : Z;
  verified : bool;
  status : Z;
  passwordless : bool;
  password : option string;
  verificationToken : option string;
  passwordlessToken : option string;
  passwordlessTokenExpires : jsnum;
  resetToken : option string;
  resetTokenExpires : jsnum;
  totp : option Totp
}.

(** [user.totp && user.totp.enabled] *)
Definition totp_on (a : Account) : bool :=
  match totp a with
  | Some t => totp_enabled t
  | None => false
  end.

(** ** Update operators: the entries of a [$set] / [$unset] object *)

Inductive SetOp : Type :=
| Set_verified (b : bool)
| Set_verificationToken_null
| Set_status (n : Z)
| Set_password (h : string)
| Set_passwordless (b : bool)
| Set_passwordlessToken (t : string)
| Set_passwordlessTokenExpires (e : jsnum)
| Set_resetToken (t : option string)
| Set_resetTokenExpires (e : jsnum)
| Set_totp_enabled (b : bool)
| Set_totp_secret (s : option string)
| Set_socialLink (provider socialID : string)
| Unset_socialLink (provider : string).

Definition with_core (a : Account) (v : bool) (vt : option string) (st : Z)
    (pl : bool) (pw : option string) : Account :=
  {| _id := _id a; username := username a; email := email a;
     firstName := firstName a; lastName := lastName a; avatar := avatar a;
     roles := roles a; plan := plan a; socialLinks := socialLinks a;
     createdAt := createdAt a; verified := v; status := st;
     passwordless := pl; password := pw; verificationToken := vt;
     passwordlessToken := passwordlessToken a;
     passwordlessTokenExpires := passwordlessTokenExpires a;
     resetToken := resetToken a; resetTokenExpires := resetTokenExpires a;
     totp := totp a |}.

Definition with_tokens (a : Account) (pt : option string) (pe : jsnum)
    (rt : option string) (re : jsnum) : Account :=
  {| _id := _id a; username := username a; email := email a;
     firstName := firstName a; lastName := lastName a; avatar := avatar a;
     roles := roles a; plan := plan a; socialLinks := socialLinks a;
     createdAt := createdAt a; verified := verified a; status := status a;
     passwordless := passwordless a; password := password a;
     verificationToken := verificationToken a;
     passwordlessToken := pt; passwordlessTokenExpires := pe;
     resetToken := rt; resetTokenExpires := re;
     totp := totp a |}.

Definition with_extras (a : Account) (sl : gmap string string)
    (tp : option Totp) : Account :=
  {| _id := _id a; username := username a; email := email a;
     firstName := firstName a; lastName := lastName a; avatar := avatar a;
     roles := roles a; plan := plan a; socialLinks := sl;
     createdAt := createdAt a; verified := verified a; status := status a;
     passwordless := passwordless a; password := password a;
     verificationToken := verificationToken a;
     passwordlessToken := passwordlessToken a;
     passwordlessTokenExpires := passwordlessTokenExpires a;
     resetToken := resetToken a; resetTokenExpires := resetTokenExpires a;
     totp := tp |}.

(** A dotted path [totp.x] creates the [totp] sub-document when the
    account has none. *)
Definition totp_or_empty (a : Account) : Totp :=
  match totp a with
  | Some t => t
  | None => {| totp_enabled := false; totp_secret := None |}
  end.

Definition apply_set (op : SetOp) (a : Account) : Account :=
  match op with
  | Set_verified b =>
      with_core a b (verificationToken a) (status a) (passwordless a) (password a)
  | Set_verificationToken_null =>
      with_core a (verified a) None (status a) (passwordless a) (password a)
  | Set_status n =>
      with_core a (verified a) (verificationToken a) n (passwordless a) (password a)
  | Set_password h =>
      with_core a (verified a) (verificationToken a) (status a) (passwordless a) (Some h)
  | Set_passwordless b =>
      with_core a (verified a) (verificationToken a) (status a) b (password a)
  | Set_passwordlessToken t =>
      with_tokens a (Some t) (passwordlessTokenExpires a) (resetToken a) (resetTokenExpires a)
  | Set_passwordlessTokenExpires e =>
      with_tokens a (passwordlessToken a) e (resetToken a) (resetTokenExpires a)
  | Set_resetToken t =>
      with_tokens a (passwordlessToken a) (passwordlessTokenExpires a) t (resetTokenExpires a)
  | Set_resetTokenExpires e =>
      with_tokens a (passwordlessToken a) (passwordlessTokenExpires a) (resetToken a) e
  | Set_totp_enabled b =>
      with_extras a (socialLinks a)
        (Some {| totp_enabled := b; totp_secret := totp_secret (totp_or_empty a) |})
  | Set_totp_secret s =>
      with_extras a (socialLinks a)
        (Some {| totp_enabled := totp_enabled (totp_or_empty a); totp_secret := s |})
  | Set_socialLink p sid =>
      with_extras a (<[p := sid]> (socialLinks a)) (totp a)
  | Unset_socialLink p =>
      with_extras a (delete p (socialLinks a)) (totp a)
  end.

(** One update document: all its entries are applied in a single write. *)
Definition apply_update (ops : list SetOp) (a : Account) : Account :=
  fold_left (fun acc op => apply_set op acc) ops a.

(** ** Queries given to [adapter.findOne] *)

Inductive Query : Type :=
| Q_email (e : string)
| Q_username (u : string)
| Q_or (q1 q2 : Query)
| Q_verificationToken (t : string)
| Q_passwordlessToken (t : string)
| Q_resetToken (t : string)
| Q_socialLink (provider socialID : string).

Fixpoint matches (q : Query) (a : Account) : bool :=
  match q with
  | Q_email e => bool_decide (email a = e)
  | Q_username u => bool_decide (username a = Some u)
  | Q_or q1 q2 => matches q1 a || matches q2 a
  | Q_verificationToken t => bool_decide (verificationToken a = Some t)
  | Q_passwordlessToken t => bool_decide (passwordlessToken a = Some t)
  | Q_resetToken t => bool_decide (resetToken a = Some t)
  | Q_socialLink p sid => bool_decide (socialLinks a !! p = Some sid)
  end.

(** The collection keeps insertion order; [findOne] answers with the
    first match. *)
Definition find_first (p : Account -> bool) (l : list Account) : option Account :=
  List.find p l.

Definition has_id (i : nat) (a : Account) : bool := bool_decide (_id a = i).

(** [updateById]: the first document with that id is rewritten in place. *)
Fixpoint update_first (i : nat) (f : Account -> Account) (l : list Account)
    : list Account :=
  match l with
  | [] => []
  | a :: l' => if has_id i a then f a :: l' else a :: update_first i f l'
  end.

(** ** Errors and the handler monad *)

Inductive Error : Type :=
| MoleculerClientError (code : Z) (type : string)
| MoleculerRetryableError (code : Z) (type : string)
| TypeError (what : string)
| ServiceError (what : string).

Inductive Result (A : Type) : Type :=
| Ok (a : A)
| Throw (e : Error).
Arguments Ok {A} a.
Arguments Throw {A} e.

Record Mail : Type := {
  mail_to : string;
  mail_template : string;
  mail_token : option string
}.

Record World : Type := {
  accounts : list Account;
  next_id : nat;
  entropy : nat;
  outbox : list Mail
}.

Definition M (A : Type) : Type := World -> Result A * World.

#[global] Instance M_ret : MRet M := fun A a w => (Ok a, w).

#[global] Instance M_bind : MBind M := fun A B f m w =>
  match m w with
  | (Ok a, w') => f a w'
  | (Throw e, w') => (Throw e, w')
  end.

Definition throw {A : Type} (e : Error) : M A := fun w => (Throw e, w).

(** A promise that is started but not awaited: its effects happen, its
    outcome (value or rejection) is dropped. *)
Definition nowait {A : Type} (m : M A) : M unit :=
  fun w => (Ok tt, snd (m w)).

Definition with_accounts (w : World) (l : list Account) : World :=
  {| accounts := l; next_id := next_id w; entropy := entropy w; outbox := outbox w |}.

(** *** The adapter *)

Definition findOne (q : Query) : M (option Account) :=
  fun w => (Ok (find_first (matches q) (accounts w)), w).

Definition findById (i : option nat) : M (option Account) :=
  fun w => (Ok (match i with
                | Some i => find_first (has_id i) (accounts w)
                | None => None
                end), w).

Definition updateById (i : option nat) (ops : list SetOp) : M (option Account) :=
  fun w =>
    match i with
    | Some i =>
        let l := update_first i (apply_update ops) (accounts w) in
        (Ok (find_first (has_id i) l), with_accounts w l)
    | None => (Ok None, w)
    end.

(** [insert]: the store allocates the [_id] and appends the document. *)
Definition insert (entity : Account) : M Account :=
  fun w =>
    let doc := {| _id := next_id w; username := username entity;
       email := email entity; firstName := firstName entity;
       lastName := lastName entity; avatar := avatar entity;
       roles := roles entity; plan := plan entity;
       socialLinks := socialLinks entity; createdAt := createdAt entity;
       verified := verified entity; status := status entity;
       passwordless := passwordless entity; password := password entity;
       verificationToken := verificationToken entity;
       passwordlessToken := passwordlessToken entity;
       passwordlessTokenExpires := passwordlessTokenExpires entity;
       resetToken := resetToken entity;
       resetTokenExpires := resetTokenExpires entity;
       totp := totp entity |} in
    (Ok doc, {| accounts := accounts w ++ [doc]; next_id := S (next_id w);
                entropy := entropy w; outbox := outbox w |}).

(** ** Configuration snapshot, process environment, call context *)

(** [this.config]: the keys the handlers read.  A missing or falsy toggle
    is [false]. *)
Record Config : Type := {
  accounts_signup_enabled : bool;
  accounts_username_enabled : bool;
  accounts_passwordless_enabled : bool;
  accounts_verification_enabled : bool;
  accounts_defaultRoles : list string;
  accounts_defaultPlan : string;
  accounts_jwt_expiresIn : option Z;
  mail_enabled : bool;
  site_name : string
}.

(** [process.env]; the two TTLs are read through [Number(...)]. *)
Record Env : Type := {
  JWT_SECRET : option string;
  ACCOUNTS_RESET_TOKEN_EXPIRES : option Z;
  ACCOUNTS_PASSWORDLESS_TOKEN_EXPIRES : option Z
}.

Record MetaUser : Type := { meta_email : string }.

(** What one call observes from outside the service: the clock
    ([Date.now()], in milliseconds, one instant per call), whether the
    remote mail action resolves, and [ctx.meta]. *)
Record Ctx : Type := {
  now : Z;
  mail_up : bool;
  meta_userID : option nat;
  meta_user : option MetaUser
}.

(** ** jsonwebtoken, as the service uses it

    [jwt.sign(payload, secret, {expiresIn})] with the default HMAC
    algorithm and a numeric [expiresIn] (seconds): the claims are the
    payload's [id], [iat = floor(now/1000)] and [exp = iat + expiresIn], and
    the signature is a MAC of the claims under the secret.  Signing fails
    without a secret or without [expiresIn].  [jwt.verify] recomputes the
    MAC and rejects a token whose [exp] is not after the current second. *)

Record JwtClaims : Type := {
  jwt_id : nat;
  jwt_iat : Z;
  jwt_exp : Z
}.

Inductive Jwt : Type :=
| SignedJwt (claims : JwtClaims) (signature : string)
| MalformedJwt (s : string).

Section Jsonwebtoken.
Variable hmac : string -> JwtClaims -> string.

Definition jwt_sign (id : nat) (secret : option string)
    (expiresIn : option Z) (now_ms : Z) : option Jwt :=
  match secret, expiresIn with
  | Some key, Some ttl =>
      if bool_decide (key = EmptyString) then None
      else
        let iat := now_ms / 1000 in
        let claims := {| jwt_id := id; jwt_iat := iat; jwt_exp := iat + ttl |} in
        Some (SignedJwt claims (hmac key claims))
  | _, _ => None
  end.

Definition jwt_verify (t : Jwt) (secret : option string) (now_ms : Z)
    : option JwtClaims :=
  match secret, t with
  | Some key, SignedJwt claims sig =>
      if bool_decide (key = EmptyString) then None
      else if negb (bool_decide (hmac key claims = sig)) then None
      else if jwt_exp claims <=? now_ms / 1000 then None
      else Some claims
  | _, _ => None
  end.
End Jsonwebtoken.

(** ** Documents as they leave the service *)

Inductive Value : Type :=
| VStr (s : string)
| VNum (z : Z)
| VNaN
| VBool (b : bool)
| VNull
| VId (i : nat)
| VStrs (l : list string)
| VLinks (m : gmap string string)
| VJwt (t : Jwt).

Definition jsnum_value (e : jsnum) : option Value :=
  match e with
  | JUndefined => None
  | JNull => Some VNull
  | JNaN => Some VNaN
  | JNum z => Some (VNum z)
  end.

(** An object built from a list of properties: a property whose value is
    [undefined] is absent; of two entries with one key the first stands. *)
Definition set_prop (kv : string * option Value) (o : gmap string Value)
    : gmap string Value :=
  match kv.2 with
  | Some v => <[kv.1 := v]> o
  | None => o
  end.

Definition object_of (props : list (string * option Value)) : gmap string Value :=
  foldr set_prop ∅ props.

(** Reading property [k] off the list an object is built from. *)
Fixpoint prop_lookup (k : string) (props : list (string * option Value))
    : option Value :=
  match props with
  | [] => None
  | (k', v) :: rest =>
      if String.eqb k' k then
        match v with
        | Some v => Some v
        | None => prop_lookup k rest
        end
      else prop_lookup k rest
  end.

(** The stored document as a JavaScript object (dotted keys for the [totp]
    sub-document), together with the [token] property that handlers attach
    to it before returning. *)
Definition to_object (a : Account) (tok : option Jwt) : gmap string Value :=
  object_of
    [ ("_id", Some (VId (_id a)));
      ("username", VStr <$> username a);
      ("email", Some (VStr (email a)));
      ("firstName", Some (VStr (firstName a)));
      ("lastName", Some (VStr (lastName a)));
      ("avatar", VStr <$> avatar a);
      ("roles", Some (VStrs (roles a)));
      ("plan", Some (VStr (plan a)));
      ("socialLinks", Some (VLinks (socialLinks a)));
      ("createdAt", Some (VNum (createdAt a)));
      ("verified", Some (VBool (verified a)));
      ("status", Some (VNum (status a)));
      ("passwordless", Some (VBool (passwordless a)));
      ("password", VStr <$> password a);
      ("verificationToken", VStr <$> verificationToken a);
      ("passwordlessToken", VStr <$> passwordlessToken a);
      ("passwordlessTokenExpires", jsnum_value (passwordlessTokenExpires a));
      ("resetToken", VStr <$> resetToken a);
      ("resetTokenExpires", jsnum_value (resetTokenExpires a));
      ("totp.enabled", (fun t => VBool (totp_enabled t)) <$> totp a);
      ("totp.secret", totp a ≫= fun t => VStr <$> totp_secret t);
      ("token", VJwt <$> tok) ].

(** [settings.fields]: name, column and the [hidden] marker. *)
Record Field : Type := {
  f_name : string;
  f_column : string;
  f_hidden : bool
}.

Definition field (n : string) (hidden : bool) : Field :=
  {| f_name := n; f_column := n; f_hidden := hidden |}.

Definition settings_fields : list Field :=
  [ {| f_name := "id"; f_column := "_id"; f_hidden := false |};
    field "username" false; field "firstName" false; field "lastName" false;
    field "email" false; field "password" true; field "avatar" false;
    field "roles" false; field "socialLinks" false; field "status" false;
    field "plan" false; field "verified" false; field "token" false;
    field "totp.enabled" false; field "passwordless" false;
    field "passwordlessTokenExpires" true; field "resetTokenExpires" true;
    field "verificationToken" true; field "createdAt" false;
    field "updatedAt" false; field "lastLoginAt" false ].

(** The properties a document is answered with: one per declared field
    that is not [hidden], read from the field's column. *)
Definition visible_props (obj : gmap string Value)
    : list (string * option Value) :=
  map (fun f => (f_name f, obj !! f_column f))
      (List.filter (fun f => negb (f_hidden f)) settings_fields).

(** Modelled from the spec: [transformDocuments] belongs to the database
    mixin (mixins/db.mixin), which is not among the source files.  The
    spec (design notes) reads the field annotations of [settings.fields] as
    a serialization boundary that strips the password hash, the token
    fields and the TOTP secret before a result leaves the service: a
    declared field that is not [hidden] is copied under its name, every
    other property of the document is dropped. *)
Definition transformDocuments (obj : gmap string Value) : gmap string Value :=
  object_of (visible_props obj).

(** [email.split("@")[0]] *)
Fixpoint local_part (s : string) : string :=
  match s with
  | EmptyString => EmptyString
  | String c s' =>
      if bool_decide (c = "@"%char) then EmptyString else String c (local_part s')
  end.

(** ** Parameters and results of the actions *)

Record RegisterParams : Type := {
  p_username : option string;
  p_password : option string;
  p_email : string;
  p_firstName : string;
  p_lastName : string;
  p_avatar : option string
}.

Record LoginParams : Type := {
  l_email : string;
  l_password : option string;
  l_token : option string
}.

Record Profile : Type := {
  socialID : string;
  pr_email : option string;
  pr_username : option string;
  pr_firstName : string;
  pr_lastName : string;
  pr_avatar : option string
}.

(** [{ token }] *)
Record TokenResult : Type := { token : Jwt }.

Inductive LoginResult : Type :=
| LoginToken (t : Jwt)                 (* { token } *)
| LoginPasswordless (email : string).  (* { passwordless: true, email } *)

Inductive Enable2FaResult : Type :=
| Provisioned (secret otpauthURL : string)  (* { secret, otpauthURL } *)
| Enabled.                                  (* true *)

Record GeneratedSecret : Type := {
  secret_ascii : string;
  secret_base32 : string
}.

(** [a || b] on an optional number of seconds: 0 is falsy. *)
Definition js_or_num (a b : option Z) : option Z :=
  match a with
  | Some z => if z =? 0 then b else Some z
  | None => b
  end.

(** ** The service *)

Section Accounts.

(** [this.config] and [process.env]. *)
Variable config : Config.
Variable env : Env.

(** bcrypt: hashing draws a salt; [compare] is a function of password and
    hash. *)
Variable bcrypt_hash : nat -> string -> string.
Variable bcrypt_compare : string -> string -> bool.
Variable bcrypt_genSalt : nat -> string.

(** crypto: [randomBytes(len).toString("hex")] at a given draw, the MD5
    hex digest, and the MAC under the tokens of jsonwebtoken. *)
Variable randomBytes_hex : nat -> nat -> string.
Variable md5_hex : string -> string.
Variable hmac : string -> JwtClaims -> string.

(** speakeasy. *)
Variable speakeasy_generateSecret : nat -> nat -> GeneratedSecret.
Variable speakeasy_otpauthURL : string -> string -> string -> string.

(** Modelled from the spec: the handlers call [this.verify2FA(secret,
    token)] and [this.generate2FaToken(secret)], whose bodies are not in
    the source files.  The spec's TotpEngine has [verifyCode(secret, code)
    -> bool] and the test helper [currentCode(secret) -> code]. *)
Variable verify2FA : option string -> option string -> bool.
Variable generate2FaToken : option string -> string.

(** *** Methods *)

Definition draw : M nat :=
  fun w => (Ok (entropy w),
            {| accounts := accounts w; next_id := next_id w;
               entropy := S (entropy w); outbox := outbox w |}).

(** [generateToken(len = 25)] *)
Definition generateToken : M string :=
  n ← draw; mret (randomBytes_hex n 25).

(** [bcrypt.hash(password, 10)] *)
Definition bcrypt_hash10 (pw : string) : M string :=
  n ← draw; mret (bcrypt_hash n pw).

(** [bcrypt.compare(password, user.password)]: rejects when the hash is
    missing. *)
Definition bcrypt_compare_stored (pw : string) (h : option string) : M bool :=
  match h with
  | Some h => mret (bcrypt_compare pw h)
  | None => throw (ServiceError "data and hash arguments required")
  end.

Definition getUserByEmail (e : string) : M (option Account) :=
  findOne (Q_email e).

Definition getUserByUsername (u : string) : M (option Account) :=
  findOne (Q_username u).

Definition post (m : Mail) : M unit :=
  fun w => (Ok tt, {| accounts := accounts w; next_id := next_id w;
                      entropy := entropy w; outbox := outbox w ++ [m] |}).

(** [sendMail(ctx, user, template, data)]: returns [false] when mail is
    off; otherwise calls the mail action and rethrows its failure. *)
Definition sendMail (ctx : Ctx) (user : option Account) (template : string)
    (data_token : option string) : M bool :=
  if negb (mail_enabled config) then mret false
  else
    match user with
    | None => throw (TypeError "Cannot read property 'email' of null")
    | Some u =>
        if mail_up ctx then
          post {| mail_to := email u; mail_template := template;
                  mail_token := data_token |};;
          mret true
        else throw (ServiceError "mail.send")
    end.

Definition generateJWT (ctx : Ctx) (id : nat) (expiresIn : option Z) : M Jwt :=
  let jwtExpiresIn := js_or_num expiresIn (accounts_jwt_expiresIn config) in
  match jwt_sign hmac id (JWT_SECRET env) jwtExpiresIn (now ctx) with
  | Some t => mret t
  | None => throw (MoleculerRetryableError 500 "UNABLE_GENERATE_TOKEN")
  end.

Definition verifyJWT (ctx : Ctx) (t : Jwt) : M JwtClaims :=
  match jwt_verify hmac t (JWT_SECRET env) (now ctx) with
  | Some decoded => mret decoded
  | None => throw (MoleculerClientError 401 "INVALID_TOKEN")
  end.

(** [getToken(user)]; on [null] the read of [user._id] throws. *)
Definition getToken (ctx : Ctx) (user : option Account) : M Jwt :=
  match user with
  | Some u => generateJWT ctx (_id u) None
  | None => throw (TypeError "Cannot read property '_id' of null")
  end.

Definition link (id : option nat) (provider : string) (profile : Profile)
    : M (option Account) :=
  updateById id [Set_socialLink provider (socialID profile);
                 Set_verified true; Set_verificationToken_null].

Definition unlink (id : option nat) (provider : string) : M (option Account) :=
  updateById id [Unset_socialLink provider].

(** Declared inside [actions] in the source; [login] calls it as
    [this.sendMagicLink(ctx, user)]. *)
Definition sendMagicLink (ctx : Ctx) (user : Account) : M bool :=
  tok ← generateToken;
  usr ← updateById (Some (_id user))
          [Set_passwordlessToken tok;
           Set_passwordlessTokenExpires
             (js_add_env (now ctx) (ACCOUNTS_PASSWORDLESS_TOKEN_EXPIRES env))];
  sendMail ctx usr "magic-link" (Some tok).

(** *** Actions

    The broker validates the parameters against each action's [params]
    schema before the handler runs; the handlers below are the bodies. *)

(** The tokens of this model always carry an [id], so the handler's
    [!decoded.id] test never fires; [getById] is the store's lookup by id. *)
Definition resolveToken (ctx : Ctx) (t : Jwt) : M (gmap string Value) :=
  decoded ← verifyJWT ctx t;
  user ← findById (Some (jwt_id decoded));
  match user with
  | None => throw (MoleculerClientError 401 "USER_NOT_FOUND")
  | Some user =>
      if negb (verified user) then
        throw (MoleculerClientError 401 "ERR_ACCOUNT_NOT_VERIFIED")
      else if negb (status user =? 1) then
        throw (MoleculerClientError 401 "USER_DISABLED")
      else mret (transformDocuments (to_object user None))
  end.

Definition gravatar (e : string) : string :=
  "https://gravatar.com/avatar/" +:+ md5_hex e +:+ "?s=64&d=retro".

Definition register (ctx : Ctx) (params : RegisterParams) : M (gmap string Value) :=
  if negb (accounts_signup_enabled config) then
    throw (MoleculerClientError 400 "ERR_SIGNUP_DISABLED")
  else
    found ← getUserByEmail (p_email params);
    if bool_decide (is_Some found) then
      throw (MoleculerClientError 400 "ERR_EMAIL_EXISTS")
    else
      (* Verify username *)
      entity_username ←
        (if accounts_username_enabled config then
           if negb (truthy (p_username params)) then
             throw (MoleculerClientError 400 "ERR_USERNAME_EMPTY")
           else
             found ← getUserByUsername (default EmptyString (p_username params));
             if bool_decide (is_Some found) then
               throw (MoleculerClientError 400 "ERR_USERNAME_EXISTS")
             else mret (p_username params)
         else mret None);
      (* Set basic data *)
      let entity_avatar :=
        if truthy (p_avatar params) then p_avatar params
        else Some (gravatar (p_email params)) in
      (* Generate passwordless token or hash password *)
      pw ←
        (if truthy (p_password params) then
           h ← bcrypt_hash10 (default EmptyString (p_password params)); mret (false, h)
         else if accounts_passwordless_enabled config then
           t ← generateToken; mret (true, t)
         else throw (MoleculerClientError 400 "ERR_PASSWORD_EMPTY"));
      (* Generate verification token *)
      vt ←
        (if accounts_verification_enabled config then
           t ← generateToken; mret (false, Some t)
         else mret (true, None));
      (* Create new user *)
      user ← insert
        {| _id := 0%nat; username := entity_username; email := p_email params;
           firstName := p_firstName params; lastName := p_lastName params;
           avatar := entity_avatar;
           roles := accounts_defaultRoles config;
           plan := accounts_defaultPlan config;
           socialLinks := ∅; createdAt := now ctx;
           verified := vt.1; status := 1;
           passwordless := pw.1; password := Some pw.2;
           verificationToken := vt.2;
           passwordlessToken := None; passwordlessTokenExpires := JUndefined;
           resetToken := None; resetTokenExpires := JUndefined;
           totp := None |};
      (* Send email *)
      if verified user then
        nowait (sendMail ctx (Some user) "welcome" None);;
        t ← getToken ctx (Some user);
        mret (transformDocuments (to_object user (Some t)))
      else
        nowait (sendMail ctx (Some user) "activate" vt.2);;
        mret (transformDocuments (to_object user None)).

Definition verify (ctx : Ctx) (tok : string) : M TokenResult :=
  user ← findOne (Q_verificationToken tok);
  match user with
  | None => throw (MoleculerClientError 400 "INVALID_TOKEN")
  | Some user =>
      res ← updateById (Some (_id user))
              [Set_verified true; Set_verificationToken_null];
      nowait (sendMail ctx res "welcome" None);;
      t ← getToken ctx res;
      mret {| token := t |}
  end.

(** [disable] and [enable] receive the resolved entity as [ctx.entity]. *)
Definition disable (ctx : Ctx) (entity : Account) : M Z :=
  if status entity =? 0 then
    throw (MoleculerClientError 400 "ERR_USER_ALREADY_DISABLED")
  else
    res ← updateById (Some (_id entity)) [Set_status 0];
    match res with
    | Some res => mret (status res)
    | None => throw (TypeError "Cannot read property 'status' of null")
    end.

Definition enable (ctx : Ctx) (entity : Account) : M Z :=
  if status entity =? 1 then
    throw (MoleculerClientError 400 "ERR_USER_ALREADY_ENABLED")
  else
    res ← updateById (Some (_id entity)) [Set_status 1];
    match res with
    | Some res => mret (status res)
    | None => throw (TypeError "Cannot read property 'status' of null")
    end.

(** The [passwordless] action (the name is taken by the field). *)
Definition passwordless_action (ctx : Ctx) (tok : string) : M TokenResult :=
  if negb (accounts_passwordless_enabled config) then
    throw (MoleculerClientError 400 "ERR_PASSWORDLESS_DISABLED")
  else
    user ← findOne (Q_passwordlessToken tok);
    match user with
    | None => throw (MoleculerClientError 400 "INVALID_TOKEN")
    | Some user =>
        (* Check status *)
        if negb (status user =? 1) then
          throw (MoleculerClientError 400 "ERR_ACCOUNT_DISABLED")
        (* Check token expiration *)
        else if js_lt (passwordlessTokenExpires user) (now ctx) then
          throw (MoleculerClientError 400 "TOKEN_EXPIRED")
        else
          (* Verified account if not *)
          (if negb (verified user) then
             updateById (Some (_id user)) [Set_verified true];; mret tt
           else mret tt);;
          t ← getToken ctx (Some user);
          mret {| token := t |}
    end.

Definition forgotpassword (ctx : Ctx) (e : string) : M bool :=
  tok ← generateToken;
  user ← getUserByEmail e;
  match user with
  | None => throw (MoleculerClientError 400 "ERR_EMAIL_NOT_FOUND")
  | Some user =>
      if negb (verified user) then
        throw (MoleculerClientError 400 "ERR_ACCOUNT_NOT_VERIFIED")
      else if negb (status user =? 1) then
        throw (MoleculerClientError 400 "ERR_ACCOUNT_DISABLED")
      else
        updateById (Some (_id user))
          [Set_resetToken (Some tok);
           Set_resetTokenExpires
             (js_add_env (now ctx) (ACCOUNTS_RESET_TOKEN_EXPIRES env))];;
        nowait (sendMail ctx (Some user) "reset-password" (Some tok));;
        mret true
  end.

Definition resetpassword (ctx : Ctx) (tok : string) (new_password : string)
    : M TokenResult :=
  (* Check the token & expires *)
  user ← findOne (Q_resetToken tok);
  match user with
  | None => throw (MoleculerClientError 400 "INVALID_TOKEN")
  | Some user =>
      if negb (status user =? 1) then
        throw (MoleculerClientError 400 "ERR_ACCOUNT_DISABLED")
      else if js_lt (resetTokenExpires user) (now ctx) then
        throw (MoleculerClientError 400 "TOKEN_EXPIRED")
      else
        (* Change the password *)
        h ← bcrypt_hash10 new_password;
        updateById (Some (_id user))
          [Set_password h; Set_passwordless false; Set_verified true;
           Set_resetToken None; Set_resetTokenExpires JNull];;
        nowait (sendMail ctx (Some user) "password-changed" None);;
        t ← getToken ctx (Some user);
        mret {| token := t |}
  end.

(** The [link] and [unlink] actions, which call the methods of the same
    names. *)
Definition link_action (ctx : Ctx) (id : nat) (provider : string)
    (profile : Profile) : M (option (gmap string Value)) :=
  res ← link (Some id) provider profile;
  mret ((fun u => transformDocuments (to_object u None)) <$> res).

Definition unlink_action (ctx : Ctx) (id : option nat) (provider : string)
    : M (option (gmap string Value)) :=
  let id := if bool_decide (is_Some id) then id else meta_userID ctx in
  if negb (bool_decide (is_Some id)) then
    throw (MoleculerClientError 400 "MISSING_USER_ID")
  else
    res ← unlink id provider;
    mret ((fun u => transformDocuments (to_object u None)) <$> res).

Definition login_query (e : string) : Query :=
  if accounts_username_enabled config then Q_or (Q_email e) (Q_username e)
  else Q_email e.

Definition login (ctx : Ctx) (params : LoginParams) : M LoginResult :=
  (* Get user *)
  user ← findOne (login_query (l_email params));
  match user with
  | None => throw (MoleculerClientError 400 "ERR_USER_NOT_FOUND")
  | Some user =>
      (* Check verified *)
      if negb (verified user) then
        throw (MoleculerClientError 400 "ERR_ACCOUNT_NOT_VERIFIED")
      (* Check status *)
      else if negb (status user =? 1) then
        throw (MoleculerClientError 400 "ERR_ACCOUNT_DISABLED")
      (* Check passwordless login *)
      else if passwordless user && truthy (l_password params) then
        throw (MoleculerClientError 400 "ERR_PASSWORDLESS_WITH_PASSWORD")
      else
        (* Authenticate; [Some r] is the early return of the magic-link
           branch *)
        early ←
          (if truthy (l_password params) then
             ok ← bcrypt_compare_stored (default EmptyString (l_password params))
                    (password user);
             if negb ok then
               throw (MoleculerClientError 400 "ERR_WRONG_PASSWORD")
             else mret None
           else if accounts_passwordless_enabled config then
             if negb (mail_enabled config) then
               throw (MoleculerClientError 400 "ERR_PASSWORDLESS_UNAVAILABLE")
             else
               sendMagicLink ctx user;;
               mret (Some (LoginPasswordless (email user)))
           else throw (MoleculerClientError 400 "ERR_PASSWORDLESS_DISABLED"));
        match early with
        | Some r => mret r
        | None =>
            (* Check Two-factor authentication *)
            (if totp_on user then
               if negb (truthy (l_token params)) then
                 throw (MoleculerClientError 400 "ERR_MISSING_2FA_CODE")
               else if negb (verify2FA (totp user ≫= totp_secret)
                               (l_token params)) then
                 throw (MoleculerClientError 400 "TWOFACTOR_INVALID_TOKEN")
               else mret tt
             else mret tt);;
            t ← getToken ctx (Some user);
            mret (LoginToken t)
        end
  end.

(** [user.id] of the document returned by [register]. *)
Definition doc_id (d : gmap string Value) : option nat :=
  match d !! "id" with
  | Some (VId i) => Some i
  | _ => None
  end.

Definition with_token (ctx : Ctx) (user : option Account) : M (gmap string Value) :=
  t ← getToken ctx user;
  match user with
  | Some u => mret (transformDocuments (to_object u (Some t)))
  | None => throw (TypeError "Cannot set property 'token' of null")
  end.

Definition socialLogin (ctx : Ctx) (provider : string) (profile : Profile)
    : M (gmap string Value) :=
  let query := Q_socialLink provider (socialID profile) in
  if bool_decide (is_Some (meta_user ctx)) then
    (* There is logged in user. Link to the logged in user *)
    user ← findOne query;
    match user with
    | Some user =>
        if negb (bool_decide (Some (_id user) = meta_userID ctx)) then
          throw (MoleculerClientError 400 "ERR_SOCIAL_ACCOUNT_MISMATCH")
        else with_token ctx (Some user)
    | None =>
        (* Not found linked account. Create the link *)
        user ← link (meta_userID ctx) provider profile;
        with_token ctx user
    end
  else
    (* No logged in user *)
    if negb (truthy (pr_email profile)) then
      throw (MoleculerClientError 400 "ERR_NO_SOCIAL_EMAIL")
    else
      let profile_email := default EmptyString (pr_email profile) in
      bySocialID ← findOne query;
      found ←
        (match bySocialID with
         | Some u => mret (Some u, true)
         | None =>
             (* Try to search user by email *)
             u ← getUserByEmail profile_email; mret (u, false)
         end);
      match found.1 with
      | Some user =>
          (* Check status *)
          if negb (status user =? 1) then
            throw (MoleculerClientError 400 "ACCOUNT_DISABLED")
          else
            user ←
              (if negb found.2 then link (Some (_id user)) provider profile
               else mret (Some user));
            with_token ctx user
      | None =>
          if negb (accounts_signup_enabled config) then
            throw (MoleculerClientError 400 "ERR_SIGNUP_DISABLED")
          else
            (* Create a new user and link *)
            n ← draw;
            registered ← register ctx
              {| p_username :=
                   if truthy (pr_username profile) then pr_username profile
                   else Some (local_part profile_email);
                 p_password := Some (bcrypt_genSalt n);
                 p_email := profile_email;
                 p_firstName := pr_firstName profile;
                 p_lastName := pr_lastName profile;
                 p_avatar := pr_avatar profile |};
            user ← link (doc_id registered) provider profile;
            with_token ctx user
      end.

Definition enable2Fa (ctx : Ctx) (tok : option string) : M Enable2FaResult :=
  user ← findById (meta_userID ctx);
  match user with
  | None => throw (MoleculerClientError 400 "USER_NOT_FOUND")
  | Some user =>
      if negb (truthy tok) && negb (totp_on user) then
        (* Generate a TOTP secret and send back otpauthURL & secret *)
        n ← draw;
        let secret := speakeasy_generateSecret n 10 in
        updateById (meta_userID ctx)
          [Set_totp_enabled false;
           Set_totp_secret (Some (secret_base32 secret))];;
        match meta_user ctx with
        | Some mu =>
            mret (Provisioned (secret_base32 secret)
                    (speakeasy_otpauthURL (secret_ascii secret)
                       (meta_email mu) (site_name config)))
        | None => throw (TypeError "Cannot read property 'email' of undefined")
        end
      else
        (* Verify the token with secret *)
        match totp user with
        | None => throw (TypeError "Cannot read property 'secret' of undefined")
        | Some t =>
            if negb (verify2FA (totp_secret t) tok) then
              throw (MoleculerClientError 400 "TWOFACTOR_INVALID_TOKEN")
            else
              updateById (meta_userID ctx) [Set_totp_enabled true];;
              mret Enabled
        end
  end.

Definition disable2Fa (ctx : Ctx) (tok : string) : M bool :=
  user ← findById (meta_userID ctx);
  match user with
  | None => throw (MoleculerClientError 400 "USER_NOT_FOUND")
  | Some user =>
      if negb (totp_on user) then
        throw (MoleculerClientError 400 "TWOFACTOR_NOT_ENABLED")
      else if negb (verify2FA (totp user ≫= totp_secret) (Some tok)) then
        throw (MoleculerClientError 400 "TWOFACTOR_INVALID_TOKEN")
      else
        updateById (meta_userID ctx)
          [Set_totp_enabled false; Set_totp_secret None];;
        mret true
  end.

(** The [generate2FaToken] action, which calls the method of that name. *)
Definition generate2FaToken_action (ctx : Ctx) (id : nat) : M string :=
  user ← findById (Some id);
  match user with
  | None => throw (MoleculerClientError 400 "USER_NOT_FOUND")
  | Some user =>
      if negb (totp_on user) then
        throw (MoleculerClientError 400 "TWOFACTOR_NOT_ENABLED")
      else mret (generate2FaToken (totp user ≫= totp_secret))
  end.

(** *** One call to the service *)

Inductive Request : Type :=
| Call_resolveToken (t : Jwt)
| Call_register (params : RegisterParams)
| Call_verify (tok : string)
| Call_disable (id : nat)
| Call_enable (id : nat)
| Call_passwordless (tok : string)
| Call_forgotpassword (e : string)
| Call_resetpassword (tok new_password : string)
| Call_link (id : nat) (provider : string) (profile : Profile)
| Call_unlink (id : option nat) (provider : string)
| Call_login (params : LoginParams)
| Call_socialLogin (provider : string) (profile : Profile)
| Call_enable2Fa (tok : option string)
| Call_disable2Fa (tok : string)
| Call_generate2FaToken (id : nat).

(** [needEntity]: the entity is resolved from [params.id] before the
    handler runs. *)
Definition with_entity {A : Type} (id : nat) (k : Account -> M A) : M A :=
  e ← findById (Some id);
  match e with
  | Some e => k e
  | None => throw (MoleculerClientError 404 "ENTITY_NOT_FOUND")
  end.

(** The state a call leaves behind, whatever it answers. *)
Definition call (ctx : Ctx) (r : Request) (w : World) : World :=
  match r with
  | Call_resolveToken t => snd (resolveToken ctx t w)
  | Call_register params => snd (register ctx params w)
  | Call_verify tok => snd (verify ctx tok w)
  | Call_disable id => snd (with_entity id (disable ctx) w)
  | Call_enable id => snd (with_entity id (enable ctx) w)
  | Call_passwordless tok => snd (passwordless_action ctx tok w)
  | Call_forgotpassword e => snd (forgotpassword ctx e w)
  | Call_resetpassword tok pw => snd (resetpassword ctx tok pw w)
  | Call_link id provider profile => snd (link_action ctx id provider profile w)
  | Call_unlink id provider => snd (unlink_action ctx id provider w)
  | Call_login params => snd (login ctx params w)
  | Call_socialLogin provider profile => snd (socialLogin ctx provider profile w)
  | Call_enable2Fa tok => snd (enable2Fa ctx tok w)
  | Call_disable2Fa tok => snd (disable2Fa ctx tok w)
  | Call_generate2FaToken id => snd (generate2FaToken_action ctx id w)
  end.

End Accounts.


(** ** Predicates of the statements *)

(** The service can sign: a non-empty [JWT_SECRET] and a configured
    [accounts.jwt.expiresIn] of [ttl] seconds. *)
Definition signing (config : Config) (env : Env) (key : string) (ttl : Z) : Prop :=
  JWT_SECRET env = Some key /\ key <> EmptyString /\ accounts_jwt_expiresIn config = Some ttl.

(** The token [jwt.sign] builds for [id] at instant [at_ms]. *)
Definition signed_token (hmac : string -> JwtClaims -> string) (key : string)
    (ttl : Z) (id : nat) (at_ms : Z) : Jwt :=
  let claims := {| jwt_id := id; jwt_iat := at_ms / 1000;
                   jwt_exp := at_ms / 1000 + ttl |} in
  SignedJwt claims (hmac key claims).

(** [verifyJWT] at instant [at_ms] accepts [t] and decodes [id] from it. *)
Definition accepts (hmac : string -> JwtClaims -> string) (env : Env)
    (t : Jwt) (id : nat) (at_ms : Z) : bool :=
  match jwt_verify hmac t (JWT_SECRET env) at_ms with
  | Some decoded => bool_decide (jwt_id decoded = id)
  | None => false
  end.

(** [findById(a._id)] answers [a]. *)
Definition resolves (w : World) (a : Account) : Prop :=
  find_first (has_id (_id a)) (accounts w) = Some a.

(** [a] is the one document that matches [q]. *)
Definition sole_match (q : Query) (w : World) (a : Account) : Prop :=
  List.filter (matches q) (accounts w) = [a].

(** The [password] field holds a value. *)
Definition password_set (a : Account) : bool :=
  match password a with
  | Some _ => true
  | None => false
  end.

(** The invariant as the data model words it: exactly one of
    "password hash set" and "passwordless" holds. *)
Definition hash_xor_passwordless (a : Account) : bool :=
  xorb (password_set a) (passwordless a).

(** The half of the data-model invariant that the handlers keep: an
    account is never passworded ([passwordless = false]) and empty. *)
Definition never_passworded_and_empty (a : Account) : bool :=
  passwordless a || password_set a.

(** [a'] of the new collection either stores a password value, or has the
    [password] and [passwordless] fields of an account of the old one. *)
Definition password_kept (old : list Account) (a' : Account) : Prop :=
  password_set a' = true
  \/ exists a, In a old /\ password a' = password a
               /\ passwordless a' = passwordless a.

Definition keeps_passwords (old new : list Account) : Prop :=
  Forall (password_kept old) new.

(** A computation that keeps passwords from whatever world it starts in. *)
Definition preserves {A : Type} (m : M A) : Prop :=
  forall w, keeps_passwords (accounts w) (accounts (snd (m w))).

(** An update document that leaves [password] and [passwordless] alone, or
    stores a password value. *)
Definition safe_update (ops : list SetOp) : Prop :=
  forall a,
    password_set (apply_update ops a) = true
    \/ (password (apply_update ops a) = password a
        /\ passwordless (apply_update ops a) = passwordless a).

(** The world after a successful [passwordless] call: the one write it can
    make is [{ verified: true }] on an unverified account. *)
Definition after_passwordless (user : Account) (w : World) : World :=
  if verified user then w
  else with_accounts w
         (update_first (_id user) (apply_update [Set_verified true]) (accounts w)).

(** ** Predicates of the further statements *)

Definition with_outbox (w : World) (ob : list Mail) : World :=
  {| accounts := accounts w; next_id := next_id w; entropy := entropy w;
     outbox := ob |}.

(** The outbox once [sendMail] has been started with mail [m]: the mail is
    handed over when the transporter is enabled and the mail action
    answers. *)
Definition posted (config : Config) (ctx : Ctx) (ob : list Mail) (m : Mail)
    : list Mail :=
  if mail_enabled config && mail_up ctx then (ob ++ [m])%list else ob.

(** The first check of [register] that fails, if any, as the error type it
    throws. *)
Definition register_refusal (config : Config) (params : RegisterParams)
    (w : World) : option string :=
  if negb (accounts_signup_enabled config) then Some "ERR_SIGNUP_DISABLED"
  else if bool_decide
            (is_Some (find_first (matches (Q_email (p_email params)))
                        (accounts w)))
  then Some "ERR_EMAIL_EXISTS"
  else if accounts_username_enabled config
          && negb (truthy (p_username params))
  then Some "ERR_USERNAME_EMPTY"
  else if accounts_username_enabled config
          && bool_decide
               (is_Some
                  (find_first
                     (matches (Q_username (default EmptyString (p_username params))))
                     (accounts w)))
  then Some "ERR_USERNAME_EXISTS"
  else if negb (truthy (p_password params))
          && negb (accounts_passwordless_enabled config)
  then Some "ERR_PASSWORD_EMPTY"
  else None.

(** The account [register] inserts when no check fails. *)
Definition new_account (config : Config) (bcrypt_hash : nat -> string -> string)
    (randomBytes_hex : nat -> nat -> string) (md5_hex : string -> string)
    (ctx : Ctx) (params : RegisterParams) (w : World) : Account :=
  {| _id := next_id w;
     username :=
       if accounts_username_enabled config then p_username params else None;
     email := p_email params;
     firstName := p_firstName params; lastName := p_lastName params;
     avatar :=
       if truthy (p_avatar params) then p_avatar params
       else Some (gravatar md5_hex (p_email params));
     roles := accounts_defaultRoles config;
     plan := accounts_defaultPlan config;
     socialLinks := ∅; createdAt := now ctx;
     verified := negb (accounts_verification_enabled config);
     status := 1;
     passwordless := negb (truthy (p_password params));
     password :=
       Some (if truthy (p_password params)
             then bcrypt_hash (entropy w) (default EmptyString (p_password params))
             else randomBytes_hex (entropy w) 25%nat);
     verificationToken :=
       if accounts_verification_enabled config
       then Some (randomBytes_hex (S (entropy w)) 25%nat) else None;
     passwordlessToken := None; passwordlessTokenExpires := JUndefined;
     resetToken := None; resetTokenExpires := JUndefined;
     totp := None |}.

(** The world after that insertion and the mail it starts. *)
Definition after_register (config : Config) (ctx : Ctx) (w : World)
    (user : Account) : World :=
  {| accounts := accounts w ++ [user];
     next_id := S (next_id w);
     entropy :=
       if accounts_verification_enabled config then S (S (entropy w))
       else S (entropy w);
     outbox :=
       posted config ctx (outbox w)
         {| mail_to := email user;
            mail_template :=
              if accounts_verification_enabled config then "activate"
              else "welcome";
            mail_token := verificationToken user |} |}.

(** The usernames that are set. *)
Definition usernames (l : list Account) : list string :=
  flat_map (fun a => match username a with Some u => [u] | None => [] end) l.

(** The collection is well formed: ids, emails and usernames are pairwise
    distinct, and every id is below the next id the store hands out. *)
Definition store_wf (w : World) : Prop :=
  List.NoDup (map _id (accounts w))
  /\ List.Forall (fun a => (_id a < next_id w)%nat) (accounts w)
  /\ List.NoDup (map email (accounts w))
  /\ List.NoDup (usernames (accounts w)).

(** A computation keeps an invariant of the world. *)
Definition keeps (I : World -> Prop) {A : Type} (m : M A) : Prop :=
  forall w, I w -> I (snd (m w)).

(** The fields of an account that no update document of the service names. *)
Definition fixed_fields (a : Account)
    : nat * option string * string * string * string * option string
      * list string * string * Z :=
  (_id a, username a, email a, firstName a, lastName a, avatar a, roles a,
   plan a, createdAt a).

(** The collection [l'] holds the accounts of [l], in their order and with
    their fixed fields, followed by accounts added since. *)
Definition extends (l l' : list Account) : Prop :=
  exists added : list Account,
    map fixed_fields l' = (map fixed_fields l ++ map fixed_fields added)%list.

(** ** A sample deployment, for closed instances of the statements *)

Module Sample.

Definition config : Config :=
  {| accounts_signup_enabled := true; accounts_username_enabled := false;
     accounts_passwordless_enabled := true;
     accounts_verification_enabled := false;
     accounts_defaultRoles := ["user"]; accounts_defaultPlan := "free";
     accounts_jwt_expiresIn := Some 3600; mail_enabled := true;
     site_name := "site" |}.

(** The same deployment with the mail transporter off. *)
Definition config_nomail : Config :=
  {| accounts_signup_enabled := true; accounts_username_enabled := false;
     accounts_passwordless_enabled := true;
     accounts_verification_enabled := false;
     accounts_defaultRoles := ["user"]; accounts_defaultPlan := "free";
     accounts_jwt_expiresIn := Some 3600; mail_enabled := false;
     site_name := "site" |}.

Definition env : Env :=
  {| JWT_SECRET := Some "k"; ACCOUNTS_RESET_TOKEN_EXPIRES := Some 1000;
     ACCOUNTS_PASSWORDLESS_TOKEN_EXPIRES := Some 1000 |}.

Definition bcrypt_hash (n : nat) (p : string) : string := "$2b$10$" +:+ p.
Definition bcrypt_compare (p h : string) : bool :=
  bool_decide (h = "$2b$10$" +:+ p).
Definition bcrypt_genSalt (n : nat) : string := "$2b$10$salt".
Definition randomBytes_hex (n len : nat) : string :=
  match n with
  | O => "a0"
  | S O => "a1"
  | _ => "a2"
  end.
Definition md5_hex (s : string) : string := "d41d8cd9".
Definition hmac (key : string) (c : JwtClaims) : string := key.
Definition speakeasy_generateSecret (n len : nat) : GeneratedSecret :=
  {| secret_ascii := "secret"; secret_base32 := "ONSWG4TFOQ" |}.
Definition speakeasy_otpauthURL (secret label issuer : string) : string :=
  "otpauth://totp/" +:+ label +:+ "?secret=" +:+ secret +:+ "&issuer=" +:+ issuer.
Definition verify2FA (secret code : option string) : bool :=
  bool_decide (secret = Some "ONSWG4TFOQ") && bool_decide (code = Some "123456").
Definition generate2FaToken (secret : option string) : string := "123456".

(** An enabled, verified account with a password. *)
Definition alice : Account :=
  {| _id := 1%nat; username := Some "alice"; email := "alice@x.com";
     firstName := "Alice"; lastName := "Liddell"; avatar := None;
     roles := ["user"]; plan := "free"; socialLinks := ∅; createdAt := 0;
     verified := true; status := 1; passwordless := false;
     password := Some "$2b$10$longenough1"; verificationToken := None;
     passwordlessToken := None; passwordlessTokenExpires := JUndefined;
     resetToken := None; resetTokenExpires := JUndefined; totp := None |}.

(** Alice after [forgotpassword]: a reset token that expires at 9000. *)
Definition alice_reset : Account :=
  with_tokens alice None JUndefined (Some "r0") (JNum 9000).

(** Alice after a passwordless [login]: a magic-link token that expires at
    9000. *)
Definition alice_magic : Account :=
  with_tokens alice (Some "m0") (JNum 9000) None JUndefined.

(** Alice holding the first token drawn, until [t]. *)
Definition alice_magic_at (t : Z) : Account :=
  with_tokens alice (Some "a0") (JNum t) None JUndefined.

(** Alice with two-factor authentication on, holding a magic-link token. *)
Definition alice_2fa : Account :=
  with_extras alice_magic ∅
    (Some {| totp_enabled := true; totp_secret := Some "ONSWG4TFOQ" |}).

Definition world_of (l : list Account) : World :=
  {| accounts := l; next_id := 2%nat; entropy := 0%nat; outbox := [] |}.

Definition ctx_at (t : Z) : Ctx :=
  {| now := t; mail_up := true; meta_userID := Some 1%nat;
     meta_user := Some {| meta_email := "alice@x.com" |} |}.

Definition anonymous_at (t : Z) : Ctx :=
  {| now := t; mail_up := true; meta_userID := None; meta_user := None |}.

(** The same deployment with e-mail verification on. *)
Definition config_verify : Config :=
  {| accounts_signup_enabled := true; accounts_username_enabled := false;
     accounts_passwordless_enabled := true;
     accounts_verification_enabled := true;
     accounts_defaultRoles := ["user"]; accounts_defaultPlan := "free";
     accounts_jwt_expiresIn := Some 3600; mail_enabled := true;
     site_name := "site" |}.

(** An environment without JWT_SECRET. *)
Definition env_nokey : Env :=
  {| JWT_SECRET := None; ACCOUNTS_RESET_TOKEN_EXPIRES := Some 1000;
     ACCOUNTS_PASSWORDLESS_TOKEN_EXPIRES := Some 1000 |}.

(** An environment without ACCOUNTS_RESET_TOKEN_EXPIRES. *)
Definition env_nottl : Env :=
  {| JWT_SECRET := Some "k"; ACCOUNTS_RESET_TOKEN_EXPIRES := None;
     ACCOUNTS_PASSWORDLESS_TOKEN_EXPIRES := Some 1000 |}.

(** A [verify2FA] that looks at the code only. *)
Definition verify2FA_any (secret code : option string) : bool :=
  bool_decide (code = Some "123456").

(** Alice before she followed the activation link. *)
Definition alice_unverified : Account :=
  with_core alice false (Some "v0") 1 false (password alice).

(** Alice after [disable]. *)
Definition alice_disabled : Account :=
  with_core alice true None 0 false (password alice).

(** Alice with a linked GitHub identity. *)
Definition alice_linked : Account :=
  with_extras alice {["github" := "gh1"]} None.

(** Alice with two-factor authentication on. *)
Definition alice_totp : Account :=
  with_extras alice ∅
    (Some {| totp_enabled := true; totp_secret := Some "ONSWG4TFOQ" |}).

(** The GitHub profile of Alice, and one of somebody unknown. *)
Definition octocat : Profile :=
  {| socialID := "gh1"; pr_email := Some "alice@x.com";
     pr_username := Some "octocat"; pr_firstName := "Alice";
     pr_lastName := "Liddell"; pr_avatar := None |}.

Definition newcomer : Profile :=
  {| socialID := "gh2"; pr_email := Some "bob@x.com"; pr_username := None;
     pr_firstName := "Bob"; pr_lastName := "Builder"; pr_avatar := None |}.

Definition bob_params : RegisterParams :=
  {| p_username := None; p_password := Some "longenough2";
     p_email := "bob@x.com"; p_firstName := "Bob"; p_lastName := "Builder";
     p_avatar := None |}.

(** A call made while the mail service is down. *)
Definition mail_down_at (t : Z) : Ctx :=
  {| now := t; mail_up := false; meta_userID := None; meta_user := None |}.

End Sample.

(** * Properties *)

Section Properties.

Variable config : Config.
Variable env : Env.
Variable bcrypt_hash : nat -> string -> string.
Variable bcrypt_compare : string -> string -> bool.
Variable bcrypt_genSalt : nat -> string.
Variable randomBytes_hex : nat -> nat -> string.
Variable md5_hex : string -> string.
Variable hmac : string -> JwtClaims -> string.
Variable speakeasy_generateSecret : nat -> nat -> GeneratedSecret.
Variable speakeasy_otpauthURL : string -> string -> string -> string.
Variable verify2FA : option string -> option string -> bool.
Variable generate2FaToken : option string -> string.

Local Abbreviation generateJWT' := (generateJWT config env hmac).
Local Abbreviation verifyJWT' := (verifyJWT env hmac).
Local Abbreviation getToken' := (getToken config env hmac).
Local Abbreviation login' :=
  (login config env bcrypt_compare randomBytes_hex hmac verify2FA).
Local Abbreviation register' :=
  (register config env bcrypt_hash randomBytes_hex md5_hex hmac).
Local Abbreviation resetpassword' := (resetpassword config env bcrypt_hash hmac).
Local Abbreviation passwordless' := (passwordless_action config env hmac).
Local Abbreviation enable2Fa' :=
  (enable2Fa config speakeasy_generateSecret speakeasy_otpauthURL verify2FA).
Local Abbreviation call' :=
  (call config env bcrypt_hash bcrypt_compare bcrypt_genSalt randomBytes_hex
     md5_hex hmac speakeasy_generateSecret speakeasy_otpauthURL verify2FA
     generate2FaToken).

Ltac mrun :=
  unfold mbind, mret, M_bind, M_ret, throw, nowait, findOne, findById,
    updateById, default, id;
  cbn [negb andb orb Z.eqb Pos.eqb fst snd with_accounts accounts next_id
       entropy outbox].

(** *** Small facts about values *)

Lemma truthy_Some (s : string) : s <> EmptyString -> truthy (Some s) = true.
Proof. intros H. unfold truthy. now rewrite bool_decide_eq_false_2. Qed.

(** *** Tokens *)

Lemma jwt_sign_signed (key : string) (ttl : Z) (id : nat) (at_ms : Z) :
  key <> EmptyString ->
  jwt_sign hmac id (Some key) (Some ttl) at_ms
  = Some (signed_token hmac key ttl id at_ms).
Proof.
  intros Hne. unfold jwt_sign. now rewrite bool_decide_eq_false_2.
Qed.

Lemma generateJWT_signed key ttl (ctx : Ctx) (id : nat) (w : World) :
  signing config env key ttl ->
  generateJWT' ctx id None w = (Ok (signed_token hmac key ttl id (now ctx)), w).
Proof.
  intros (Hk & Hne & Ht). unfold generateJWT. simpl. rewrite Hk, Ht.
  now rewrite jwt_sign_signed.
Qed.

Lemma jwt_verify_signed key ttl (id : nat) (at_ms later : Z) :
  key <> EmptyString ->
  jwt_verify hmac (signed_token hmac key ttl id at_ms) (Some key) later
  = if at_ms / 1000 + ttl <=? later / 1000 then None
    else Some {| jwt_id := id; jwt_iat := at_ms / 1000;
                 jwt_exp := at_ms / 1000 + ttl |}.
Proof.
  intros Hne. unfold jwt_verify, signed_token. cbn beta iota zeta.
  rewrite bool_decide_eq_false_2 by assumption.
  rewrite bool_decide_eq_true_2 by reflexivity.
  reflexivity.
Qed.

Lemma signed_token_accepted key ttl (id : nat) (at_ms later : Z) :
  signing config env key ttl ->
  later / 1000 < at_ms / 1000 + ttl ->
  accepts hmac env (signed_token hmac key ttl id at_ms) id later = true.
Proof.
  intros (Hk & Hne & _) Hlt. unfold accepts. rewrite Hk, jwt_verify_signed by assumption.
  destruct (Z.leb_spec (at_ms / 1000 + ttl) (later / 1000)); [lia|].
  now apply bool_decide_eq_true_2.
Qed.

(** C8.  A session token issued by [generateJWT] for an account id is
    accepted by [verifyJWT] until its time to live has elapsed, and decodes
    to that id; from the second its time to live has elapsed on, [verifyJWT]
    rejects it with the client error INVALID_TOKEN. *)
Theorem jwt_issue_verify_roundtrip :
  forall (key : string) (ttl : Z) (expiresIn : option Z) (issued : Ctx)
         (id : nat) (w : World),
    JWT_SECRET env = Some key ->
    key <> EmptyString ->
    js_or_num expiresIn (accounts_jwt_expiresIn config) = Some ttl ->
    exists t : Jwt,
      generateJWT' issued id expiresIn w = (Ok t, w)
      /\ (forall (later : Ctx) (w' : World),
            now later / 1000 < now issued / 1000 + ttl ->
            exists decoded,
              verifyJWT' later t w' = (Ok decoded, w')
              /\ jwt_id decoded = id)
      /\ (forall (later : Ctx) (w' : World),
            now issued / 1000 + ttl <= now later / 1000 ->
            verifyJWT' later t w'
            = (Throw (MoleculerClientError 401 "INVALID_TOKEN"), w')).
Proof.
  intros key ttl expiresIn issued id w Hk Hne Httl.
  exists (signed_token hmac key ttl id (now issued)).
  split; [|split].
  - unfold generateJWT. cbn zeta. rewrite Hk, Httl.
    now rewrite jwt_sign_signed.
  - intros later w' Hlt. unfold verifyJWT.
    rewrite Hk, jwt_verify_signed by assumption.
    destruct (Z.leb_spec (now issued / 1000 + ttl) (now later / 1000)); [lia|].
    eexists. split; reflexivity.
  - intros later w' Hge. unfold verifyJWT.
    rewrite Hk, jwt_verify_signed by assumption.
    destruct (Z.leb_spec (now issued / 1000 + ttl) (now later / 1000)); [|lia].
    reflexivity.
Qed.

(** *** The collection *)

Lemma apply_set_id (op : SetOp) (a : Account) : _id (apply_set op a) = _id a.
Proof. destruct op; reflexivity. Qed.

Lemma apply_update_id (ops : list SetOp) (a : Account) :
  _id (apply_update ops a) = _id a.
Proof.
  unfold apply_update. revert a.
  induction ops as [|op ops IH]; intros a; simpl; [reflexivity|].
  now rewrite IH, apply_set_id.
Qed.

Lemma has_id_true (i : nat) (a : Account) : has_id i a = true <-> _id a = i.
Proof. unfold has_id. apply bool_decide_eq_true. Qed.

(** After [updateById(i, f)], [findById(i)] answers the rewritten document. *)
Lemma find_id_update_first (i : nat) (f : Account -> Account) (l : list Account) :
  (forall a, _id (f a) = _id a) ->
  find_first (has_id i) (update_first i f l) = f <$> find_first (has_id i) l.
Proof.
  intros Hf. induction l as [|x l IH]; simpl; [reflexivity|].
  destruct (has_id i x) eqn:Hx; simpl.
  - assert (has_id i (f x) = true) as ->; [|reflexivity].
    apply has_id_true. rewrite Hf. now apply has_id_true.
  - now rewrite Hx.
Qed.

(** A lookup on fields the update leaves alone still finds a document, the
    old one or its rewritten version. *)
Lemma find_update_first_stable (p : Account -> bool) (i : nat)
    (f : Account -> Account) (l : list Account) (a : Account) :
  (forall x, p (f x) = p x) ->
  find_first p l = Some a ->
  exists a', find_first p (update_first i f l) = Some a' /\ (a' = a \/ a' = f a).
Proof.
  intros Hp. induction l as [|x l IH]; simpl; [discriminate|].
  destruct (has_id i x) eqn:Hx; simpl.
  - rewrite Hp. destruct (p x) eqn:Hpx.
    + intros [= ->]. eauto.
    + intros H. eauto.
  - destruct (p x) eqn:Hpx.
    + intros [= ->]. eauto.
    + auto.
Qed.

(** When the document found is the one its id resolves to, the lookup
    finds its rewritten version. *)
Lemma find_update_first_hit (p : Account -> bool) (f : Account -> Account)
    (l : list Account) (a : Account) :
  (forall x, p (f x) = p x) ->
  find_first p l = Some a ->
  find_first (has_id (_id a)) l = Some a ->
  find_first p (update_first (_id a) f l) = Some (f a).
Proof.
  intros Hp. induction l as [|x l IH]; simpl; [discriminate|].
  destruct (has_id (_id a) x) eqn:Hx; simpl.
  - intros Hfind [= ->]. rewrite Hp.
    destruct (p a) eqn:Hpa; [reflexivity|].
    apply List.find_some in Hfind. destruct Hfind as [_ Hfind]. congruence.
  - destruct (p x) eqn:Hpx.
    + intros [= ->]. assert (has_id (_id a) a = true) by now apply has_id_true.
      congruence.
    + auto.
Qed.

(** When the document updated is the only match of a lookup and the update
    makes it stop matching, the lookup finds nothing. *)
Lemma find_update_first_gone (p : Account -> bool) (f : Account -> Account)
    (l : list Account) (a : Account) :
  List.filter p l = [a] ->
  find_first (has_id (_id a)) l = Some a ->
  p (f a) = false ->
  find_first p (update_first (_id a) f l) = None.
Proof.
  intros Hfil Hid Hpf.
  assert (Hpa : p a = true).
  { assert (In a (List.filter p l)) as Hin by (rewrite Hfil; now left).
    now apply List.filter_In in Hin. }
  revert Hfil Hid. induction l as [|x l IH]; simpl; [discriminate|].
  destruct (has_id (_id a) x) eqn:Hx; simpl.
  - intros Hfil [= ->]. rewrite Hpa in Hfil. rewrite Hpf.
    injection Hfil as Hfil.
    unfold find_first. destruct (List.find p l) eqn:Hfd; [|reflexivity].
    apply List.find_some in Hfd. destruct Hfd as [Hin Hpx].
    assert (In a0 (List.filter p l)) as Hin' by now apply List.filter_In.
    rewrite Hfil in Hin'. destruct Hin'.
  - destruct (p x) eqn:Hpx.
    + intros [= -> Hnil] _. assert (has_id (_id a) a = true) by now apply has_id_true.
      congruence.
    + auto.
Qed.

(** *** Password login *)

Lemma getToken_signed key ttl (ctx : Ctx) (user : Account) (w : World) :
  signing config env key ttl ->
  getToken' ctx (Some user) w
  = (Ok (signed_token hmac key ttl (_id user) (now ctx)), w).
Proof. intros Hs. unfold getToken. now apply generateJWT_signed. Qed.

(** C5.  On a verified, enabled account with [passwordless = false] and
    two-factor authentication off, [login] with a password that bcrypt
    accepts for the stored hash returns a session token that [verifyJWT]
    accepts for that account; with a password bcrypt rejects it throws
    ERR_WRONG_PASSWORD and returns no token.  The store is left as it was in
    both cases. *)
Theorem login_password :
  forall (key : string) (ttl : Z) (ctx : Ctx) (e pw : string)
         (code : option string) (w : World) (user : Account) (h : string),
    signing config env key ttl ->
    find_first (matches (login_query config e)) (accounts w) = Some user ->
    verified user = true ->
    status user = 1 ->
    passwordless user = false ->
    totp_on user = false ->
    password user = Some h ->
    pw <> EmptyString ->
    let params := {| l_email := e; l_password := Some pw; l_token := code |} in
    let t := signed_token hmac key ttl (_id user) (now ctx) in
    (bcrypt_compare pw h = true ->
       login' ctx params w = (Ok (LoginToken t), w)
       /\ forall later : Z,
            later / 1000 < now ctx / 1000 + ttl ->
            accepts hmac env t (_id user) later = true)
    /\ (bcrypt_compare pw h = false ->
        login' ctx params w
        = (Throw (MoleculerClientError 400 "ERR_WRONG_PASSWORD"), w)).
Proof.
  intros key ttl ctx e pw code w user h Hs Hfind Hv Hst Hpl Htotp Hh Hpw params t.
  assert (Htr := truthy_Some pw Hpw).
  split.
  - intros Hok. split.
    + unfold login, bcrypt_compare_stored. mrun. cbn [l_email l_password params].
      rewrite Hfind, Hv, Hst, Hpl, Hh, Htr. mrun. rewrite Hok, Htotp. cbn [negb].
      now rewrite (getToken_signed key ttl).
    + intros later Hlater. now apply signed_token_accepted.
  - intros Hbad. unfold login, bcrypt_compare_stored. mrun.
    cbn [l_email l_password params].
    rewrite Hfind, Hv, Hst, Hpl, Hh, Htr. mrun. now rewrite Hbad.
Qed.

(** *** Magic-link login *)

Lemma passwordless_run key ttl (ctx : Ctx) (tok : string) (w : World)
    (user : Account) :
  signing config env key ttl ->
  accounts_passwordless_enabled config = true ->
  find_first (matches (Q_passwordlessToken tok)) (accounts w) = Some user ->
  status user = 1 ->
  js_lt (passwordlessTokenExpires user) (now ctx) = false ->
  passwordless' ctx tok w
  = (Ok {| token := signed_token hmac key ttl (_id user) (now ctx) |},
     after_passwordless user w).
Proof.
  intros Hs Hen Hfind Hst Hexp.
  unfold passwordless_action, after_passwordless. rewrite Hen. mrun.
  rewrite Hfind, Hst, Hexp. mrun.
  destruct (verified user); mrun; now rewrite (getToken_signed key ttl).
Qed.

Lemma passwordless_keeps_tokens (user : Account) (w : World) :
  map passwordlessToken (accounts (after_passwordless user w))
  = map passwordlessToken (accounts w).
Proof.
  unfold after_passwordless. destruct (verified user); [reflexivity|].
  simpl. induction (accounts w) as [|x l IH]; simpl; [reflexivity|].
  destruct (has_id (_id user) x); simpl; [reflexivity|]. now rewrite IH.
Qed.

(** C1.  What the handler does with a found, enabled, unexpired magic-link
    token: it succeeds and returns a session token, its only write is
    [{ verified: true }] on an unverified account, and no account's
    [passwordlessToken] changes; a second consumption of the same token
    therefore succeeds again and returns another session token for the same
    account. *)
Theorem passwordless_token_replay :
  forall (key : string) (ttl : Z) (ctx1 ctx2 : Ctx) (tok : string)
         (w : World) (user : Account),
    signing config env key ttl ->
    accounts_passwordless_enabled config = true ->
    find_first (matches (Q_passwordlessToken tok)) (accounts w) = Some user ->
    status user = 1 ->
    js_lt (passwordlessTokenExpires user) (now ctx1) = false ->
    js_lt (passwordlessTokenExpires user) (now ctx2) = false ->
    let w1 := after_passwordless user w in
    passwordless' ctx1 tok w
    = (Ok {| token := signed_token hmac key ttl (_id user) (now ctx1) |}, w1)
    /\ map passwordlessToken (accounts w1) = map passwordlessToken (accounts w)
    /\ exists w2 : World,
         passwordless' ctx2 tok w1
         = (Ok {| token := signed_token hmac key ttl (_id user) (now ctx2) |}, w2).
Proof.
  intros key ttl ctx1 ctx2 tok w user Hs Hen Hfind Hst Hexp1 Hexp2 w1.
  split; [now apply passwordless_run|].
  split; [apply passwordless_keeps_tokens|].
  assert (Hagain : exists user1,
             find_first (matches (Q_passwordlessToken tok)) (accounts w1) = Some user1
             /\ (user1 = user \/ user1 = apply_update [Set_verified true] user)).
  { subst w1. unfold after_passwordless. destruct (verified user); [eauto|].
    simpl. apply find_update_first_stable; [|assumption].
    intros x. reflexivity. }
  destruct Hagain as (user1 & Hfind1 & Hcase).
  exists (after_passwordless user1 w1).
  assert (_id user1 = _id user) as <- by (destruct Hcase; now subst).
  apply passwordless_run; try assumption.
  - destruct Hcase; now subst.
  - destruct Hcase; now subst.
Qed.

(** C9.  On an account with two-factor authentication enabled that holds
    a found, unexpired magic-link token, [passwordless] returns a session
    token for the account.  The handler takes no 2FA code and does not
    depend on [verify2FA]: the statement holds for every [verify2FA], the
    one that rejects every code included.  Password login on the same
    account, with the right password and no code, is refused with
    ERR_MISSING_2FA_CODE. *)
Theorem passwordless_skips_2fa :
  forall (key : string) (ttl : Z) (ctx : Ctx) (tok : string) (w : World)
         (user : Account),
    signing config env key ttl ->
    accounts_passwordless_enabled config = true ->
    find_first (matches (Q_passwordlessToken tok)) (accounts w) = Some user ->
    status user = 1 ->
    js_lt (passwordlessTokenExpires user) (now ctx) = false ->
    totp_on user = true ->
    passwordless' ctx tok w
    = (Ok {| token := signed_token hmac key ttl (_id user) (now ctx) |},
       after_passwordless user w)
    /\ forall (e pw h : string),
         find_first (matches (login_query config e)) (accounts w) = Some user ->
         verified user = true ->
         passwordless user = false ->
         password user = Some h ->
         pw <> EmptyString ->
         bcrypt_compare pw h = true ->
         login' ctx {| l_email := e; l_password := Some pw; l_token := None |} w
         = (Throw (MoleculerClientError 400 "ERR_MISSING_2FA_CODE"), w).
Proof.
  intros key ttl ctx tok w user Hs Hen Hfind Hst Hexp Htotp.
  split; [now apply passwordless_run|].
  intros e pw h Hlogin Hv Hpl Hh Hpw Hok.
  unfold login, bcrypt_compare_stored. mrun. cbn [l_email l_password l_token].
  rewrite Hlogin, Hv, Hst, Hpl, Hh, (truthy_Some pw Hpw). mrun.
  rewrite Hok, Htotp. reflexivity.
Qed.

(** *** Two-factor authentication *)


(** [login] hands out no session token to an account with 2FA on when the
    call carries no code. *)
Lemma login_2fa_no_code_no_token (ctx : Ctx) (params : LoginParams)
    (w : World) (user : Account) :
  find_first (matches (login_query config (l_email params))) (accounts w)
  = Some user ->
  totp_on user = true ->
  truthy (l_token params) = false ->
  forall (t : Jwt) (w' : World), login' ctx params w <> (Ok (LoginToken t), w').
Proof.
  intros Hfind Htotp Hcode t w'.
  unfold login. mrun. rewrite Hfind.
  destruct (verified user); mrun; [|discriminate].
  destruct (status user =? 1); mrun; [|discriminate].
  destruct (passwordless user && truthy (l_password params)); [discriminate|].
  destruct (truthy (l_password params)).
  - unfold bcrypt_compare_stored. destruct (password user) as [h|]; mrun;
      [|discriminate].
    destruct (bcrypt_compare _ h); mrun; [|discriminate].
    rewrite Htotp, Hcode. discriminate.
  - destruct (accounts_passwordless_enabled config); [|discriminate].
    destruct (mail_enabled config); mrun; [|discriminate].
    destruct (sendMagicLink config env randomBytes_hex ctx user w) as [[b|err] w1];
      discriminate.
Qed.


(** *** Registration *)

Lemma lookup_object_of (props : list (string * option Value)) (k : string) :
  object_of props !! k = prop_lookup k props.
Proof.
  induction props as [|[k' v] props IH]; simpl; [apply lookup_empty|].
  unfold set_prop. simpl. destruct (String.eqb_spec k' k) as [->|Hne].
  - destruct v as [v|]; [apply lookup_insert_eq|exact IH].
  - destruct v as [v|]; [|exact IH]. now rewrite lookup_insert_ne.
Qed.

Lemma is_Some_None_false {A : Type} : bool_decide (is_Some (@None A)) = false.
Proof. apply bool_decide_eq_false_2. intros [x Hx]. discriminate. Qed.

(** What [transformDocuments] answers for a document with its token
    attached: the hidden and undeclared properties are gone. *)
Lemma transformDocuments_visible (user : Account) (t : Jwt) :
  let doc := transformDocuments (to_object user (Some t)) in
  doc !! "id" = Some (VId (_id user))
  /\ doc !! "email" = Some (VStr (email user))
  /\ doc !! "verified" = Some (VBool (verified user))
  /\ doc !! "passwordless" = Some (VBool (passwordless user))
  /\ doc !! "token" = Some (VJwt t)
  /\ doc !! "password" = None
  /\ doc !! "verificationToken" = None
  /\ doc !! "passwordlessToken" = None
  /\ doc !! "resetToken" = None
  /\ doc !! "totp.secret" = None.
Proof.
  cbv zeta. unfold transformDocuments, to_object.
  rewrite !lookup_object_of. unfold visible_props.
  cbn [settings_fields List.filter field f_hidden f_name f_column negb map].
  rewrite !lookup_object_of.
  repeat split; reflexivity.
Qed.

(** Mail only ever touches the outbox. *)
Lemma sendMail_frame (ctx : Ctx) (user : option Account) (template : string)
    (data : option string) (w : World) :
  exists ob : list Mail,
    snd (sendMail config ctx user template data w)
    = {| accounts := accounts w; next_id := next_id w; entropy := entropy w;
         outbox := ob |}.
Proof.
  unfold sendMail, post. destruct (mail_enabled config); mrun.
  - destruct user as [u|]; [|exists (outbox w); now destruct w].
    destruct (mail_up ctx); mrun;
      [eexists; reflexivity | exists (outbox w); now destruct w].
  - exists (outbox w). now destruct w.
Qed.

Ltac mail_frame :=
  match goal with
  | |- context [snd (sendMail ?c ?x ?u ?t ?d ?w)] =>
      let ob := fresh "ob" in
      let Hob := fresh "Hob" in
      destruct (sendMail_frame x u t d w) as [ob Hob]; rewrite Hob; clear Hob
  end.

(** C6.  With sign-up open and the verification feature off, [register]
    with an unregistered email and a password (and, when the username
    feature is on, an unregistered username) appends an account with
    [verified = true] and [passwordless = false] that stores the bcrypt hash
    of the password, and answers the transformed account: it carries a
    session token for the new account, and neither the password hash nor
    any token field or TOTP secret.  This holds whether or not the
    passwordless feature is enabled. *)
Theorem register_with_password :
  forall (key : string) (ttl : Z) (ctx : Ctx) (params : RegisterParams)
         (pw : string) (w : World),
    signing config env key ttl ->
    accounts_signup_enabled config = true ->
    accounts_verification_enabled config = false ->
    find_first (matches (Q_email (p_email params))) (accounts w) = None ->
    (accounts_username_enabled config = true ->
       exists u, p_username params = Some u /\ u <> EmptyString
                 /\ find_first (matches (Q_username u)) (accounts w) = None) ->
    p_password params = Some pw ->
    pw <> EmptyString ->
    exists (doc : gmap string Value) (w1 : World) (user : Account),
      register' ctx params w = (Ok doc, w1)
      /\ accounts w1 = (accounts w ++ [user])%list
      /\ _id user = next_id w
      /\ email user = p_email params
      /\ verified user = true
      /\ passwordless user = false
      /\ password user = Some (bcrypt_hash (entropy w) pw)
      /\ doc !! "id" = Some (VId (_id user))
      /\ doc !! "email" = Some (VStr (p_email params))
      /\ doc !! "verified" = Some (VBool true)
      /\ doc !! "passwordless" = Some (VBool false)
      /\ doc !! "token"
         = Some (VJwt (signed_token hmac key ttl (_id user) (now ctx)))
      /\ doc !! "password" = None
      /\ doc !! "verificationToken" = None
      /\ doc !! "passwordlessToken" = None
      /\ doc !! "resetToken" = None
      /\ doc !! "totp.secret" = None.
Proof.
  intros key ttl ctx params pw w Hs Hsignup Hverif Hfresh Huser Hpw Hpwne.
  assert (Htr := truthy_Some pw Hpwne).
  unfold register, getUserByEmail, getUserByUsername, bcrypt_hash10, draw, insert.
  rewrite Hsignup. mrun. rewrite Hfresh, is_Some_None_false, Hverif, Hpw, Htr.
  destruct (accounts_username_enabled config) eqn:Hun.
  - destruct (Huser eq_refl) as (u & Hu & Hune & Hufresh).
    rewrite Hu, (truthy_Some u Hune). mrun.
    rewrite Hufresh, is_Some_None_false. mrun.
    cbn [verified fst snd]. mrun. mail_frame.
    rewrite (getToken_signed key ttl) by assumption.
    do 3 eexists. split; [reflexivity|].
    split; [reflexivity|].
    pose proof (transformDocuments_visible) as Hdoc. cbv zeta in Hdoc.
    repeat (split; [reflexivity || apply Hdoc|]). apply Hdoc.
  - mrun. cbn [verified fst snd]. mrun. mail_frame.
    rewrite (getToken_signed key ttl) by assumption.
    do 3 eexists. split; [reflexivity|].
    split; [reflexivity|].
    pose proof (transformDocuments_visible) as Hdoc. cbv zeta in Hdoc.
    repeat (split; [reflexivity || apply Hdoc|]). apply Hdoc.
Qed.

(** *** Password reset *)

Lemma sole_match_find (q : Query) (w : World) (a : Account) :
  sole_match q w a -> find_first (matches q) (accounts w) = Some a.
Proof.
  unfold sole_match, find_first.
  induction (accounts w) as [|x l IH]; simpl; [discriminate|].
  destruct (matches q x); [|exact IH]. now intros [= ->].
Qed.

Lemma login_query_stable (e : string) (ops : list SetOp) (a : Account) :
  (forall b, email (apply_update ops b) = email b) ->
  (forall b, username (apply_update ops b) = username b) ->
  matches (login_query config e) (apply_update ops a)
  = matches (login_query config e) a.
Proof.
  intros He Hu. unfold login_query.
  destruct (accounts_username_enabled config); simpl; now rewrite ?He, ?Hu.
Qed.

(** C3.  When the reset token is held by exactly one account, which is
    enabled, and the token has not expired, [resetpassword] makes one
    update that sets the hash of the new password, [passwordless = false],
    [verified = true] and nulls [resetToken] and [resetTokenExpires], and it
    returns a session token for the account.  A second [resetpassword] with
    the same token throws INVALID_TOKEN.  [login] with the new password then
    returns a session token (with a valid 2FA code when the account has 2FA
    on). *)
Theorem resetpassword_consumes_token :
  forall (key : string) (ttl : Z) (ctx : Ctx) (tok pw : string) (w : World)
         (user : Account),
    signing config env key ttl ->
    (forall n p, bcrypt_compare p (bcrypt_hash n p) = true) ->
    sole_match (Q_resetToken tok) w user ->
    resolves w user ->
    status user = 1 ->
    js_lt (resetTokenExpires user) (now ctx) = false ->
    pw <> EmptyString ->
    let h := bcrypt_hash (entropy w) pw in
    let update := [Set_password h; Set_passwordless false; Set_verified true;
                   Set_resetToken None; Set_resetTokenExpires JNull] in
    let user1 := apply_update update user in
    exists w1 : World,
      resetpassword' ctx tok pw w
      = (Ok {| token := signed_token hmac key ttl (_id user) (now ctx) |}, w1)
      /\ accounts w1 = update_first (_id user) (apply_update update) (accounts w)
      /\ find_first (has_id (_id user)) (accounts w1) = Some user1
      /\ password user1 = Some h
      /\ passwordless user1 = false
      /\ verified user1 = true
      /\ resetToken user1 = None
      /\ resetTokenExpires user1 = JNull
      /\ (forall (ctx2 : Ctx) (pw2 : string),
            resetpassword' ctx2 tok pw2 w1
            = (Throw (MoleculerClientError 400 "INVALID_TOKEN"), w1))
      /\ (forall (ctx3 : Ctx) (e : string) (code : option string),
            find_first (matches (login_query config e)) (accounts w) = Some user ->
            (totp_on user = true ->
               truthy code = true
               /\ verify2FA (totp user ≫= totp_secret) code = true) ->
            login' ctx3 {| l_email := e; l_password := Some pw; l_token := code |} w1
            = (Ok (LoginToken (signed_token hmac key ttl (_id user) (now ctx3))), w1)).
Proof.
  intros key ttl ctx tok pw w user Hs Hbcrypt Hsole Hres Hst Hexp Hpw h update user1.
  assert (Hfind := sole_match_find _ _ _ Hsole).
  set (l1 := update_first (_id user) (apply_update update) (accounts w)).
  assert (Hrun : exists ob : list Mail,
    resetpassword' ctx tok pw w
    = (Ok {| token := signed_token hmac key ttl (_id user) (now ctx) |},
       {| accounts := l1; next_id := next_id w; entropy := S (entropy w);
          outbox := ob |})).
  { unfold resetpassword, bcrypt_hash10, draw. mrun. rewrite Hfind, Hst, Hexp. mrun.
    mail_frame. rewrite (getToken_signed key ttl) by assumption.
    eexists. reflexivity. }
  destruct Hrun as [ob Hrun].
  set (w1 := {| accounts := l1; next_id := next_id w; entropy := S (entropy w);
                outbox := ob |}).
  assert (Hid1 : find_first (has_id (_id user)) l1 = Some user1).
  { subst l1. rewrite find_id_update_first by apply apply_update_id.
    unfold resolves in Hres. now rewrite Hres. }
  exists w1. repeat split.
  - exact Hrun.
  - exact Hid1.
  - intros ctx2 pw2. unfold resetpassword. mrun.
    assert (find_first (matches (Q_resetToken tok)) (accounts w1) = None) as ->;
      [|reflexivity].
    apply find_update_first_gone; [exact Hsole|exact Hres|reflexivity].
  - intros ctx3 e code Hlogin Hcode.
    assert (Hlogin1 : find_first (matches (login_query config e)) (accounts w1)
                      = Some user1).
    { apply find_update_first_hit; [|exact Hlogin|exact Hres].
      intros x. now apply login_query_stable. }
    unfold login, bcrypt_compare_stored. mrun. cbn [l_email l_password l_token].
    rewrite Hlogin1, (truthy_Some pw Hpw).
    assert (verified user1 = true) as -> by reflexivity.
    assert (status user1 = 1) as -> by exact Hst.
    assert (passwordless user1 = false) as -> by reflexivity.
    assert (password user1 = Some h) as -> by reflexivity.
    assert (totp_on user1 = totp_on user) as -> by reflexivity.
    assert (totp user1 = totp user) as -> by reflexivity.
    mrun. unfold h. rewrite Hbcrypt. mrun.
    destruct (totp_on user).
    + destruct (Hcode eq_refl) as [Hc1 Hc2]. unfold mbind in Hc2.
      rewrite Hc1, Hc2. mrun. now rewrite (getToken_signed key ttl).
    + now rewrite (getToken_signed key ttl).
Qed.

(** *** Magic link *)


(** *** The password invariant, over every action *)

Lemma password_kept_In (l : list Account) (a : Account) :
  In a l -> password_kept l a.
Proof. intros Hin. right. now exists a. Qed.

Lemma keeps_passwords_refl (l : list Account) : keeps_passwords l l.
Proof. apply Forall_forall. intros a Hin. now apply password_kept_In, list_elem_of_In. Qed.

Lemma keeps_passwords_trans (l1 l2 l3 : list Account) :
  keeps_passwords l1 l2 -> keeps_passwords l2 l3 -> keeps_passwords l1 l3.
Proof.
  unfold keeps_passwords. rewrite !Forall_forall. intros H12 H23 a3 Hin3.
  destruct (H23 a3 Hin3) as [Hset|(a2 & Hin2 & Hpw & Hpl)]; [now left|].
  destruct (H12 a2 (proj2 (list_elem_of_In _ _) Hin2)) as [Hset|(a1 & Hin1 & Hpw1 & Hpl1)].
  - left. unfold password_set in *. now rewrite Hpw.
  - right. exists a1. repeat split; congruence.
Qed.

Lemma keeps_passwords_update (i : nat) (ops : list SetOp) (l : list Account) :
  safe_update ops ->
  keeps_passwords l (update_first i (apply_update ops) l).
Proof.
  intros Hsafe. induction l as [|x l IH]; simpl; [constructor|].
  assert (Hweak : forall a, password_kept l a -> password_kept (x :: l) a).
  { intros a [Hset|(b & Hin & Hb)]; [now left|].
    right. exists b. split; [now right|exact Hb]. }
  destruct (has_id i x).
  - constructor.
    + destruct (Hsafe x) as [Hset|[Hpw Hpl]]; [now left|].
      right. exists x. split; [now left|now split].
    + apply Forall_forall. intros a Hin. apply Hweak.
      now apply password_kept_In, list_elem_of_In.
  - constructor.
    + apply password_kept_In. now left.
    + eapply Forall_impl; [exact IH|]. intros a Ha. now apply Hweak.
Qed.

Lemma keeps_passwords_insert (l : list Account) (a : Account) :
  password_set a = true -> keeps_passwords l (l ++ [a]).
Proof.
  intros Hset. apply Forall_app. split.
  - apply keeps_passwords_refl.
  - constructor; [now left|constructor].
Qed.

Lemma preserves_ret {A : Type} (a : A) : preserves (mret a).
Proof. intros w. apply keeps_passwords_refl. Qed.

Lemma preserves_throw {A : Type} (e : Error) : preserves (@throw A e).
Proof. intros w. apply keeps_passwords_refl. Qed.

Lemma preserves_bind {A B : Type} (m : M A) (f : A -> M B) :
  preserves m -> (forall a, preserves (f a)) -> preserves (m ≫= f).
Proof.
  intros Hm Hf w. unfold mbind, M_bind. specialize (Hm w).
  destruct (m w) as [[a|e] w1]; simpl in *; [|exact Hm].
  eapply keeps_passwords_trans; [exact Hm|apply Hf].
Qed.

Lemma preserves_nowait {A : Type} (m : M A) : preserves m -> preserves (nowait m).
Proof. intros Hm w. exact (Hm w). Qed.

Lemma preserves_findOne (q : Query) : preserves (findOne q).
Proof. intros w. apply keeps_passwords_refl. Qed.

Lemma preserves_findById (i : option nat) : preserves (findById i).
Proof. intros w. apply keeps_passwords_refl. Qed.

Lemma preserves_draw : preserves draw.
Proof. intros w. apply keeps_passwords_refl. Qed.

Lemma preserves_post (m : Mail) : preserves (post m).
Proof. intros w. apply keeps_passwords_refl. Qed.

Lemma preserves_updateById (i : option nat) (ops : list SetOp) :
  safe_update ops -> preserves (updateById i ops).
Proof.
  intros Hsafe w. unfold updateById. destruct i as [i|]; simpl.
  - now apply keeps_passwords_update.
  - apply keeps_passwords_refl.
Qed.

Lemma preserves_insert (entity : Account) :
  password_set entity = true -> preserves (insert entity).
Proof. intros Hset w. simpl. now apply keeps_passwords_insert. Qed.

(** An update whose entries all leave [password] and [passwordless] alone. *)
Lemma safe_update_untouched (ops : list SetOp) :
  (forall a, password (apply_update ops a) = password a) ->
  (forall a, passwordless (apply_update ops a) = passwordless a) ->
  safe_update ops.
Proof. intros Hpw Hpl a. right. split; [apply Hpw|apply Hpl]. Qed.

Create HintDb pres discriminated.

#[local] Hint Resolve preserves_ret preserves_throw preserves_nowait
  preserves_findOne preserves_findById preserves_draw preserves_post : pres.

Ltac safe_update_tac :=
  first [ apply safe_update_untouched; intros ?; reflexivity
        | intros ?; left; reflexivity ].

Ltac pres :=
  repeat first
    [ progress intros
    | apply preserves_bind
    | apply preserves_updateById; safe_update_tac
    | apply preserves_insert; reflexivity
    | solve [auto with pres]
    | match goal with
      | |- preserves (if ?c then _ else _) => destruct c
      | |- preserves (match ?x with _ => _ end) => destruct x
      end ].

Lemma preserves_sendMail (ctx : Ctx) (user : option Account) (t : string)
    (d : option string) : preserves (sendMail config ctx user t d).
Proof. unfold sendMail. pres. Qed.

Lemma preserves_getToken (ctx : Ctx) (user : option Account) :
  preserves (getToken' ctx user).
Proof. unfold getToken, generateJWT. pres. Qed.

#[local] Hint Resolve preserves_sendMail preserves_getToken : pres.

Lemma preserves_link (i : option nat) (provider : string) (profile : Profile) :
  preserves (link i provider profile).
Proof. unfold link. pres. Qed.

Lemma preserves_sendMagicLink (ctx : Ctx) (user : Account) :
  preserves (sendMagicLink config env randomBytes_hex ctx user).
Proof. unfold sendMagicLink, generateToken. pres. Qed.

#[local] Hint Resolve preserves_link preserves_sendMagicLink : pres.

Lemma preserves_register (ctx : Ctx) (params : RegisterParams) :
  preserves (register' ctx params).
Proof.
  unfold register, getUserByEmail, getUserByUsername, bcrypt_hash10,
    generateToken.
  pres.
Qed.

Lemma preserves_login (ctx : Ctx) (params : LoginParams) :
  preserves (login' ctx params).
Proof. unfold login, bcrypt_compare_stored. pres. Qed.

Lemma preserves_socialLogin (ctx : Ctx) (provider : string) (profile : Profile) :
  preserves (socialLogin config env bcrypt_hash bcrypt_genSalt randomBytes_hex
               md5_hex hmac ctx provider profile).
Proof.
  pose proof preserves_register.
  unfold socialLogin, with_token, getUserByEmail. pres.
Qed.

Lemma preserves_call (ctx : Ctx) (r : Request) (w : World) :
  keeps_passwords (accounts w) (accounts (call' ctx r w)).
Proof.
  pose proof preserves_register. pose proof preserves_login.
  pose proof preserves_socialLogin.
  destruct r; unfold call;
    match goal with |- keeps_passwords _ (accounts (snd (?m w))) =>
      change (keeps_passwords (accounts w) (accounts (snd (m w))));
      generalize w; change (preserves m)
    end;
    try solve [auto].
  - unfold resolveToken, verifyJWT. pres.
  - unfold verify. pres.
  - unfold with_entity, disable. pres.
  - unfold with_entity, enable. pres.
  - unfold passwordless_action. pres.
  - unfold forgotpassword, generateToken, getUserByEmail. pres.
  - unfold resetpassword, bcrypt_hash10. pres.
  - unfold link_action. pres.
  - unfold unlink_action, unlink. pres.
  - unfold enable2Fa. pres.
  - unfold disable2Fa. pres.
  - unfold generate2FaToken_action. pres.
Qed.

Lemma getToken_frame (ctx : Ctx) (user : option Account) (w w' : World)
    (r : Result Jwt) :
  getToken' ctx user w = (r, w') -> w' = w.
Proof.
  unfold getToken, generateJWT. destruct user as [u|]; [|now intros [= _ <-]].
  destruct (jwt_sign _ _ _ _ _); now intros [= _ <-].
Qed.

(** What a successful [register] stores in the password fields. *)
Lemma register_password_fields (ctx : Ctx) (params : RegisterParams)
    (w w1 : World) (doc : gmap string Value) :
  register' ctx params w = (Ok doc, w1) ->
  exists user : Account,
    accounts w1 = (accounts w ++ [user])%list
    /\ passwordless user = negb (truthy (p_password params))
    /\ password user
       = Some (if truthy (p_password params)
               then bcrypt_hash (entropy w) (default EmptyString (p_password params))
               else randomBytes_hex (entropy w) 25).
Proof.
  unfold register, getUserByEmail, getUserByUsername, bcrypt_hash10,
    generateToken, draw, insert.
  destruct (accounts_signup_enabled config); mrun; [|discriminate].
  destruct (bool_decide (is_Some (find_first _ (accounts w)))); [discriminate|].
  destruct (accounts_username_enabled config); mrun;
    [ destruct (truthy (p_username params)); mrun; [|discriminate];
      destruct (bool_decide (is_Some (find_first _ (accounts w))));
        [discriminate|]
    | ];
    (destruct (truthy (p_password params)); mrun;
       [|destruct (accounts_passwordless_enabled config); mrun; [|discriminate]]);
    (destruct (accounts_verification_enabled config); mrun;
       cbn [verified fst snd]; mrun; mail_frame;
       [|destruct (getToken' _ _ _) as [[t|err] w2] eqn:Htok;
           [apply getToken_frame in Htok; subst w2|discriminate]]);
    intros [= <- <-]; eexists; (split; [reflexivity|now split]).
Qed.


(** * Further properties of the handlers *)

Local Abbreviation verify' := (verify config env hmac).
Local Abbreviation forgotpassword' :=
  (forgotpassword config env randomBytes_hex).
Local Abbreviation resolveToken' := (resolveToken env hmac).
Local Abbreviation socialLogin' :=
  (socialLogin config env bcrypt_hash bcrypt_genSalt randomBytes_hex md5_hex
     hmac).
Local Abbreviation sendMagicLink' :=
  (sendMagicLink config env randomBytes_hex).

Lemma sendMail_posted (ctx : Ctx) (u : Account) (template : string)
    (d : option string) (w : World) :
  snd (sendMail config ctx (Some u) template d w)
  = with_outbox w
      (posted config ctx (outbox w)
         {| mail_to := email u; mail_template := template; mail_token := d |}).
Proof.
  unfold sendMail, posted, post, with_outbox.
  destruct (mail_enabled config); mrun; [|now destruct w].
  destruct (mail_up ctx); mrun; [reflexivity|now destruct w].
Qed.

Lemma update_first_twice (i : nat) (f g : Account -> Account) (l : list Account) :
  (forall a, _id (f a) = _id a) ->
  update_first i g (update_first i f l) = update_first i (fun a => g (f a)) l.
Proof.
  intros Hf. induction l as [|x l IH]; simpl; [reflexivity|].
  destruct (has_id i x) eqn:Hx; simpl.
  - assert (has_id i (f x) = true) as ->; [|reflexivity].
    apply has_id_true. rewrite Hf. now apply has_id_true.
  - now rewrite Hx, IH.
Qed.

Lemma update_first_fixed (i : nat) (f : Account -> Account) (l : list Account)
    (a : Account) :
  find_first (has_id i) l = Some a -> f a = a -> update_first i f l = l.
Proof.
  intros Hfind Hfa. induction l as [|x l IH]; simpl in *; [reflexivity|].
  destruct (has_id i x).
  - injection Hfind as ->. now rewrite Hfa.
  - now rewrite IH.
Qed.

(** *** Email verification *)

(** X1.  [verify] with a verification token held by exactly one account
    sets [verified = true] and nulls the token in one update, starts the
    "welcome" mail and returns a session token; it does so whatever the
    account's [status] is (the handler has no status check).  A second
    [verify] with the same token throws INVALID_TOKEN. *)
Theorem verify_consumes_token :
  forall (key : string) (ttl : Z) (ctx : Ctx) (tok : string) (w : World)
         (user : Account),
    signing config env key ttl ->
    sole_match (Q_verificationToken tok) w user ->
    resolves w user ->
    let update := [Set_verified true; Set_verificationToken_null] in
    let user1 := apply_update update user in
    let w1 :=
      {| accounts := update_first (_id user) (apply_update update) (accounts w);
         next_id := next_id w; entropy := entropy w;
         outbox := posted config ctx (outbox w)
                     {| mail_to := email user; mail_template := "welcome";
                        mail_token := None |} |} in
    verify' ctx tok w
    = (Ok {| token := signed_token hmac key ttl (_id user) (now ctx) |}, w1)
    /\ find_first (has_id (_id user)) (accounts w1) = Some user1
    /\ verified user1 = true
    /\ verificationToken user1 = None
    /\ status user1 = status user
    /\ forall ctx2 : Ctx,
         verify' ctx2 tok w1
         = (Throw (MoleculerClientError 400 "INVALID_TOKEN"), w1).
Proof.
  intros key ttl ctx tok w user Hs Hsole Hres update user1 w1.
  assert (Hfind := sole_match_find _ _ _ Hsole).
  assert (Hid1 : find_first (has_id (_id user))
                   (update_first (_id user) (apply_update update) (accounts w))
                 = Some user1).
  { rewrite find_id_update_first by apply apply_update_id.
    unfold resolves in Hres. now rewrite Hres. }
  split; [|split; [exact Hid1|repeat split]].
  - unfold verify. mrun. rewrite Hfind. mrun. fold update. rewrite Hid1.
    rewrite sendMail_posted. rewrite (getToken_signed key ttl) by assumption.
    reflexivity.
  - intros ctx2. unfold verify. mrun.
    assert (find_first (matches (Q_verificationToken tok)) (accounts w1) = None)
      as ->; [|reflexivity].
    apply find_update_first_gone; [exact Hsole|exact Hres|reflexivity].
Qed.

(** *** Disabling and enabling *)

(** X2.  [disable] on an account whose status is 1 writes status 0 and
    answers 0; a second [disable] throws ERR_USER_ALREADY_DISABLED; [enable]
    then writes status 1 back, which restores the collection exactly, and a
    second [enable] throws ERR_USER_ALREADY_ENABLED. *)
Theorem disable_enable_roundtrip :
  forall (ctx : Ctx) (w : World) (user : Account),
    resolves w user ->
    status user = 1 ->
    let user1 := apply_update [Set_status 0] user in
    let w1 :=
      with_accounts w
        (update_first (_id user) (apply_update [Set_status 0]) (accounts w)) in
    disable ctx user w = (Ok 0, w1)
    /\ find_first (has_id (_id user)) (accounts w1) = Some user1
    /\ disable ctx user1 w1
       = (Throw (MoleculerClientError 400 "ERR_USER_ALREADY_DISABLED"), w1)
    /\ enable ctx user1 w1 = (Ok 1, w)
    /\ enable ctx user w
       = (Throw (MoleculerClientError 400 "ERR_USER_ALREADY_ENABLED"), w).
Proof.
  intros ctx w user Hres Hst user1 w1.
  assert (Hid1 : find_first (has_id (_id user)) (accounts w1) = Some user1).
  { simpl. rewrite find_id_update_first by apply apply_update_id.
    unfold resolves in Hres. now rewrite Hres. }
  split; [|split; [exact Hid1|split; [reflexivity|split]]].
  - unfold disable. rewrite Hst. mrun. simpl in Hid1. rewrite Hid1. reflexivity.
  - unfold enable. assert (status user1 = 0) as -> by reflexivity.
    change (_id user1) with (_id user). mrun. subst w1.
    cbn [accounts with_accounts next_id entropy outbox].
    rewrite update_first_twice by apply apply_update_id.
    assert (Hback : update_first (_id user)
                      (fun a => apply_update [Set_status 1]
                                  (apply_update [Set_status 0] a)) (accounts w)
                    = accounts w).
    { apply (update_first_fixed _ _ _ user); [exact Hres|].
      destruct user; simpl in *. now subst. }
    rewrite Hback. unfold resolves in Hres. rewrite Hres, Hst. now destruct w.
  - unfold enable. now rewrite Hst.
Qed.

(** X3.  An account whose status is not 1 is turned away by every
    credential path that checks the status, with nothing written to the
    collection: [login] (whatever password or code is given), the
    magic-link consumption, [resetpassword] (the reset token stays on the
    account) and [forgotpassword]. *)
Theorem disabled_account_is_rejected :
  forall (ctx : Ctx) (w : World) (user : Account),
    (status user =? 1) = false ->
    (forall params : LoginParams,
       find_first (matches (login_query config (l_email params))) (accounts w)
       = Some user ->
       verified user = true ->
       login' ctx params w
       = (Throw (MoleculerClientError 400 "ERR_ACCOUNT_DISABLED"), w))
    /\ (forall tok : string,
          accounts_passwordless_enabled config = true ->
          find_first (matches (Q_passwordlessToken tok)) (accounts w) = Some user ->
          passwordless' ctx tok w
          = (Throw (MoleculerClientError 400 "ERR_ACCOUNT_DISABLED"), w))
    /\ (forall tok pw : string,
          find_first (matches (Q_resetToken tok)) (accounts w) = Some user ->
          resetpassword' ctx tok pw w
          = (Throw (MoleculerClientError 400 "ERR_ACCOUNT_DISABLED"), w))
    /\ (forall e : string,
          find_first (matches (Q_email e)) (accounts w) = Some user ->
          verified user = true ->
          exists w1 : World,
            forgotpassword' ctx e w
            = (Throw (MoleculerClientError 400 "ERR_ACCOUNT_DISABLED"), w1)
            /\ accounts w1 = accounts w
            /\ outbox w1 = outbox w).
Proof.
  intros ctx w user Hst. repeat split.
  - intros params Hfind Hv. unfold login. mrun. now rewrite Hfind, Hv, Hst.
  - intros tok Hen Hfind. unfold passwordless_action. rewrite Hen. mrun.
    now rewrite Hfind, Hst.
  - intros tok pw Hfind. unfold resetpassword. mrun. now rewrite Hfind, Hst.
  - intros e Hfind Hv. eexists.
    unfold forgotpassword, generateToken, getUserByEmail, draw. mrun.
    rewrite Hfind, Hv, Hst. repeat split.
Qed.

(** *** Expiry of the magic-link token *)

(** X4.  The magic-link token is refused with TOKEN_EXPIRED exactly when
    its stored expiry is a number strictly before [Date.now()] (or [null],
    which compares as 0): at the expiry instant itself the link is still
    good, and an account whose expiry field is absent or [NaN] holds a link
    that never expires.  A refused link writes nothing. *)
Theorem passwordless_expiry_boundary :
  forall (key : string) (ttl : Z) (ctx : Ctx) (tok : string) (w : World)
         (user : Account),
    signing config env key ttl ->
    accounts_passwordless_enabled config = true ->
    find_first (matches (Q_passwordlessToken tok)) (accounts w) = Some user ->
    status user = 1 ->
    let good :=
      (Ok {| token := signed_token hmac key ttl (_id user) (now ctx) |},
       after_passwordless user w) in
    let expired :=
      (Throw (MoleculerClientError 400 "TOKEN_EXPIRED"), w) in
    passwordless' ctx tok w
    = match passwordlessTokenExpires user with
      | JNum t => if t <? now ctx then expired else good
      | JNull => if 0 <? now ctx then expired else good
      | JUndefined => good
      | JNaN => good
      end.
Proof.
  intros key ttl ctx tok w user Hs Hen Hfind Hst good expired.
  destruct (js_lt (passwordlessTokenExpires user) (now ctx)) eqn:Hlt.
  - assert (passwordless' ctx tok w = expired) as ->.
    { unfold passwordless_action. rewrite Hen. mrun. now rewrite Hfind, Hst, Hlt. }
    destruct (passwordlessTokenExpires user); simpl in Hlt;
      try discriminate; now rewrite Hlt.
  - rewrite (passwordless_run key ttl ctx tok w user) by assumption.
    destruct (passwordlessTokenExpires user); simpl in Hlt;
      try reflexivity; now rewrite Hlt.
Qed.

(** *** Forgotten password *)

Lemma find_update_first_new (p : Account -> bool) (f : Account -> Account)
    (l : list Account) (i : nat) (a : Account) :
  find_first p l = None ->
  find_first (has_id i) l = Some a ->
  p (f a) = true ->
  find_first p (update_first i f l) = Some (f a).
Proof.
  induction l as [|x l IH]; simpl; [discriminate|].
  destruct (p x) eqn:Hpx; [discriminate|].
  destruct (has_id i x) eqn:Hx; simpl.
  - intros _ [= ->] Hpf. now rewrite Hpf.
  - rewrite Hpx. exact IH.
Qed.

Lemma find_update_first_still_none (p : Account -> bool)
    (f : Account -> Account) (l : list Account) (i : nat) :
  find_first p l = None ->
  (forall a, find_first (has_id i) l = Some a -> p (f a) = false) ->
  find_first p (update_first i f l) = None.
Proof.
  induction l as [|x l IH]; simpl; [reflexivity|].
  destruct (p x) eqn:Hpx; [discriminate|].
  destruct (has_id i x) eqn:Hx; simpl.
  - intros Hnone Hpf. now rewrite (Hpf x eq_refl).
  - rewrite Hpx. exact IH.
Qed.

(** The world [forgotpassword] leaves for an account it accepts. *)
Lemma forgotpassword_run (ctx : Ctx) (e : string) (w : World) (user : Account) :
  find_first (matches (Q_email e)) (accounts w) = Some user ->
  verified user = true ->
  status user = 1 ->
  let tok := randomBytes_hex (entropy w) 25 in
  forgotpassword' ctx e w
  = (Ok true,
     {| accounts :=
          update_first (_id user)
            (apply_update
               [Set_resetToken (Some tok);
                Set_resetTokenExpires
                  (js_add_env (now ctx) (ACCOUNTS_RESET_TOKEN_EXPIRES env))])
            (accounts w);
        next_id := next_id w; entropy := S (entropy w);
        outbox := posted config ctx (outbox w)
                    {| mail_to := email user; mail_template := "reset-password";
                       mail_token := Some tok |} |}).
Proof.
  intros Hfind Hv Hst tok.
  unfold forgotpassword, generateToken, getUserByEmail, draw. mrun.
  rewrite Hfind, Hv, Hst. mrun. now rewrite sendMail_posted.
Qed.

(** What [resetpassword] answers for a token it finds on an enabled
    account, by the stored expiry. *)
Lemma resetpassword_run key ttl (ctx : Ctx) (tok pw : string) (w : World)
    (user : Account) :
  signing config env key ttl ->
  find_first (matches (Q_resetToken tok)) (accounts w) = Some user ->
  status user = 1 ->
  resetpassword' ctx tok pw w
  = if js_lt (resetTokenExpires user) (now ctx) then
      (Throw (MoleculerClientError 400 "TOKEN_EXPIRED"), w)
    else
      (Ok {| token := signed_token hmac key ttl (_id user) (now ctx) |},
       {| accounts :=
            update_first (_id user)
              (apply_update
                 [Set_password (bcrypt_hash (entropy w) pw);
                  Set_passwordless false; Set_verified true;
                  Set_resetToken None; Set_resetTokenExpires JNull])
              (accounts w);
          next_id := next_id w; entropy := S (entropy w);
          outbox := posted config ctx (outbox w)
                      {| mail_to := email user;
                         mail_template := "password-changed";
                         mail_token := None |} |}).
Proof.
  intros Hs Hfind Hst.
  unfold resetpassword, bcrypt_hash10, draw. mrun. rewrite Hfind, Hst. mrun.
  destruct (js_lt (resetTokenExpires user) (now ctx)); [reflexivity|].
  mrun. rewrite sendMail_posted. cbn [with_outbox accounts next_id entropy outbox].
  now rewrite (getToken_signed key ttl).
Qed.

(** The account [forgotpassword] wrote the token on answers the lookup by
    that token, when no account held the token before. *)
Lemma forgotpassword_token_found (ctx : Ctx) (w : World) (user : Account)
    (tok : string) (e : jsnum) :
  resolves w user ->
  find_first (matches (Q_resetToken tok)) (accounts w) = None ->
  find_first (matches (Q_resetToken tok))
    (update_first (_id user)
       (apply_update [Set_resetToken (Some tok); Set_resetTokenExpires e])
       (accounts w))
  = Some (apply_update [Set_resetToken (Some tok); Set_resetTokenExpires e] user).
Proof.
  intros Hres Hnone. apply find_update_first_new; [exact Hnone|exact Hres|].
  simpl. now apply bool_decide_eq_true_2.
Qed.

(** X5.  [forgotpassword] for a verified, enabled account stores a fresh
    token with the expiry [Date.now() + ACCOUNTS_RESET_TOKEN_EXPIRES] and
    starts the "reset-password" mail carrying it.  [resetpassword] with
    that token then succeeds up to and including the expiry instant, and
    throws TOKEN_EXPIRED, writing nothing, once the clock is past it. *)
Theorem forgotpassword_then_resetpassword :
  forall (key : string) (ttl d : Z) (ctx1 ctx2 : Ctx) (e pw : string)
         (w : World) (user : Account),
    signing config env key ttl ->
    ACCOUNTS_RESET_TOKEN_EXPIRES env = Some d ->
    find_first (matches (Q_email e)) (accounts w) = Some user ->
    resolves w user ->
    verified user = true ->
    status user = 1 ->
    let tok := randomBytes_hex (entropy w) 25 in
    find_first (matches (Q_resetToken tok)) (accounts w) = None ->
    let w1 :=
      {| accounts :=
           update_first (_id user)
             (apply_update [Set_resetToken (Some tok);
                            Set_resetTokenExpires (JNum (now ctx1 + d))])
             (accounts w);
         next_id := next_id w; entropy := S (entropy w);
         outbox := posted config ctx1 (outbox w)
                     {| mail_to := email user; mail_template := "reset-password";
                        mail_token := Some tok |} |} in
    forgotpassword' ctx1 e w = (Ok true, w1)
    /\ (now ctx2 <= now ctx1 + d ->
        exists w2 : World,
          resetpassword' ctx2 tok pw w1
          = (Ok {| token := signed_token hmac key ttl (_id user) (now ctx2) |}, w2))
    /\ (now ctx1 + d < now ctx2 ->
        resetpassword' ctx2 tok pw w1
        = (Throw (MoleculerClientError 400 "TOKEN_EXPIRED"), w1)).
Proof.
  intros key ttl d ctx1 ctx2 e pw w user Hs Hd Hfind Hres Hv Hst tok Hfresh w1.
  assert (Hrun := forgotpassword_run ctx1 e w user Hfind Hv Hst).
  cbv zeta in Hrun. rewrite Hd in Hrun. simpl js_add_env in Hrun. fold tok in Hrun.
  split; [exact Hrun|].
  assert (Hfound := forgotpassword_token_found ctx1 w user tok
                      (JNum (now ctx1 + d)) Hres Hfresh).
  assert (Hreset := resetpassword_run key ttl ctx2 tok pw w1 _ Hs Hfound Hst).
  cbn [resetTokenExpires apply_update fold_left apply_set with_tokens js_lt] in Hreset.
  split.
  - intros Hle. destruct (Z.ltb_spec (now ctx1 + d) (now ctx2)); [lia|].
    eexists. exact Hreset.
  - intros Hlt. destruct (Z.ltb_spec (now ctx1 + d) (now ctx2)); [|lia].
    exact Hreset.
Qed.

(** X6.  When ACCOUNTS_RESET_TOKEN_EXPIRES is not set, the expiry that
    [forgotpassword] stores is [Date.now() + NaN], and [NaN < Date.now()] is
    false: [resetpassword] accepts the token at any later time. *)
Theorem reset_token_without_ttl_never_expires :
  forall (key : string) (ttl : Z) (ctx1 ctx2 : Ctx) (e pw : string)
         (w : World) (user : Account),
    signing config env key ttl ->
    ACCOUNTS_RESET_TOKEN_EXPIRES env = None ->
    find_first (matches (Q_email e)) (accounts w) = Some user ->
    resolves w user ->
    verified user = true ->
    status user = 1 ->
    let tok := randomBytes_hex (entropy w) 25 in
    find_first (matches (Q_resetToken tok)) (accounts w) = None ->
    exists w1 w2 : World,
      forgotpassword' ctx1 e w = (Ok true, w1)
      /\ (forall user1, find_first (has_id (_id user)) (accounts w1) = Some user1 ->
            resetToken user1 = Some tok /\ resetTokenExpires user1 = JNaN)
      /\ resetpassword' ctx2 tok pw w1
         = (Ok {| token := signed_token hmac key ttl (_id user) (now ctx2) |}, w2).
Proof.
  intros key ttl ctx1 ctx2 e pw w user Hs Hd Hfind Hres Hv Hst tok Hfresh.
  assert (Hrun := forgotpassword_run ctx1 e w user Hfind Hv Hst).
  cbv zeta in Hrun. rewrite Hd in Hrun. simpl js_add_env in Hrun. fold tok in Hrun.
  assert (Hfound := forgotpassword_token_found ctx1 w user tok JNaN Hres Hfresh).
  match type of Hrun with _ = (_, ?w1') => set (w1 := w1') in * end.
  assert (Hreset := resetpassword_run key ttl ctx2 tok pw w1 _ Hs Hfound Hst).
  cbn [resetTokenExpires apply_update fold_left apply_set with_tokens js_lt]
    in Hreset.
  exists w1. eexists. split; [exact Hrun|]. split; [|exact Hreset].
  cbn [accounts w1]. rewrite find_id_update_first by apply apply_update_id.
  unfold resolves in Hres. rewrite Hres. intros user1 [= <-]. now split.
Qed.

(** X7.  A second [forgotpassword] for the same account overwrites the
    reset token: [resetpassword] with the first token then throws
    INVALID_TOKEN (the two tokens drawn differ, and no other account holds
    the first). *)
Theorem forgotpassword_supersedes_token :
  forall (ctx1 ctx2 ctx3 : Ctx) (e pw : string) (w : World) (user : Account),
    find_first (matches (Q_email e)) (accounts w) = Some user ->
    resolves w user ->
    verified user = true ->
    status user = 1 ->
    let tok1 := randomBytes_hex (entropy w) 25 in
    let tok2 := randomBytes_hex (S (entropy w)) 25 in
    tok1 <> tok2 ->
    find_first (matches (Q_resetToken tok1)) (accounts w) = None ->
    exists w1 w2 : World,
      forgotpassword' ctx1 e w = (Ok true, w1)
      /\ forgotpassword' ctx2 e w1 = (Ok true, w2)
      /\ resetpassword' ctx3 tok1 pw w2
         = (Throw (MoleculerClientError 400 "INVALID_TOKEN"), w2).
Proof.
  intros ctx1 ctx2 ctx3 e pw w user Hfind Hres Hv Hst tok1 tok2 Hne Hfresh.
  assert (Hrun1 := forgotpassword_run ctx1 e w user Hfind Hv Hst).
  cbv zeta in Hrun1. fold tok1 in Hrun1.
  set (up1 := apply_update
                [Set_resetToken (Some tok1);
                 Set_resetTokenExpires
                   (js_add_env (now ctx1) (ACCOUNTS_RESET_TOKEN_EXPIRES env))]) in *.
  set (w1 := {| accounts := update_first (_id user) up1 (accounts w);
                next_id := next_id w; entropy := S (entropy w);
                outbox := posted config ctx1 (outbox w)
                            {| mail_to := email user;
                               mail_template := "reset-password";
                               mail_token := Some tok1 |} |}) in *.
  assert (Hfind1 : find_first (matches (Q_email e)) (accounts w1) = Some (up1 user)).
  { apply find_update_first_hit; [intros x; reflexivity|exact Hfind|exact Hres]. }
  assert (Hrun2 := forgotpassword_run ctx2 e w1 (up1 user) Hfind1 Hv Hst).
  cbv zeta in Hrun2. cbn [entropy w1] in Hrun2. fold tok2 in Hrun2.
  eexists. eexists. split; [exact Hrun1|]. split; [exact Hrun2|].
  unfold resetpassword. mrun.
  match goal with
  | |- context [find_first ?p ?l] =>
      assert (find_first p l = None) as ->; [|reflexivity]
  end.
  change (_id (up1 user)) with (_id user). cbn [accounts w1].
  unfold up1. rewrite update_first_twice by apply apply_update_id.
  apply find_update_first_still_none; [exact Hfresh|].
  intros a _. simpl. apply bool_decide_eq_false_2. intros [= H]. now apply Hne.
Qed.

(** *** Registration, in full *)

Local Abbreviation new_account' :=
  (new_account config bcrypt_hash randomBytes_hex md5_hex).

Lemma found_is_Some {A : Type} (o : option A) :
  bool_decide (is_Some o) = match o with Some _ => true | None => false end.
Proof.
  destruct o as [x|]; [|apply is_Some_None_false].
  apply bool_decide_eq_true_2. now exists x.
Qed.

(** [register], check by check: the first failing check decides the
    client error and nothing is written; otherwise the account is inserted,
    the mail started, and the answer depends only on the verification
    feature and on whether the token can be signed. *)
Lemma register_run (ctx : Ctx) (params : RegisterParams) (w : World) :
  register' ctx params w
  = match register_refusal config params w with
    | Some type => (Throw (MoleculerClientError 400 type), w)
    | None =>
        let user := new_account' ctx params w in
        let w1 := after_register config ctx w user in
        if accounts_verification_enabled config then
          (Ok (transformDocuments (to_object user None)), w1)
        else
          match jwt_sign hmac (_id user) (JWT_SECRET env)
                  (accounts_jwt_expiresIn config) (now ctx) with
          | Some t => (Ok (transformDocuments (to_object user (Some t))), w1)
          | None =>
              (Throw (MoleculerRetryableError 500 "UNABLE_GENERATE_TOKEN"), w1)
          end
    end.
Proof.
  unfold register, register_refusal, new_account, after_register,
    getUserByEmail, getUserByUsername, bcrypt_hash10, generateToken, draw,
    insert, getToken, generateJWT.
  destruct (accounts_signup_enabled config); mrun; [|reflexivity].
  rewrite !found_is_Some.
  destruct (find_first (matches (Q_email (p_email params))) (accounts w));
    [reflexivity|].
  destruct (accounts_username_enabled config); mrun;
    [ destruct (truthy (p_username params)); mrun; [|reflexivity];
      rewrite ?found_is_Some;
      destruct (find_first _ (accounts w)); mrun; [reflexivity|]
    | ];
    (destruct (truthy (p_password params)); mrun;
       [|destruct (accounts_passwordless_enabled config); mrun; [|reflexivity]]);
    (destruct (accounts_verification_enabled config); mrun;
       cbn [verified fst snd]; mrun; rewrite sendMail_posted;
       cbn [js_or_num _id with_outbox accounts next_id entropy outbox email
            verificationToken];
       [reflexivity|destruct (jwt_sign _ _ _ _ _); reflexivity]).
Qed.

Lemma find_first_app (p : Account -> bool) (l : list Account) (a : Account) :
  find_first p (l ++ [a])
  = match find_first p l with
    | Some x => Some x
    | None => if p a then Some a else None
    end.
Proof.
  unfold find_first. induction l as [|x l IH]; simpl; [reflexivity|].
  destruct (p x); [reflexivity|exact IH].
Qed.

(** The answer of [transformDocuments] for a stored account, with or
    without a token attached. *)
Lemma transformDocuments_answer (user : Account) (tok : option Jwt) :
  let doc := transformDocuments (to_object user tok) in
  doc !! "id" = Some (VId (_id user))
  /\ doc !! "email" = Some (VStr (email user))
  /\ doc !! "verified" = Some (VBool (verified user))
  /\ doc !! "token" = VJwt <$> tok
  /\ doc !! "password" = None
  /\ doc !! "verificationToken" = None.
Proof.
  cbv zeta. unfold transformDocuments, to_object.
  rewrite !lookup_object_of. unfold visible_props.
  cbn [settings_fields List.filter field f_hidden f_name f_column negb map].
  rewrite !lookup_object_of.
  destruct tok; repeat split; reflexivity.
Qed.

(** X8.  Every outcome of [register] is one of three: a client error
    (code 400), with the world exactly as it was; the transformed document
    of the one account appended (carrying a token exactly when the
    verification feature is off, and never the password or the
    verification token); or, with verification off, the retryable
    UNABLE_GENERATE_TOKEN error with the account appended all the same.  A
    failing mail call never surfaces. *)
Theorem register_outcomes :
  forall (ctx : Ctx) (params : RegisterParams) (w w1 : World)
         (r : Result (gmap string Value)),
    register' ctx params w = (r, w1) ->
    match r with
    | Throw (MoleculerClientError code type) => code = 400 /\ w1 = w
    | Throw (MoleculerRetryableError code type) =>
        type = "UNABLE_GENERATE_TOKEN"
        /\ accounts_verification_enabled config = false
        /\ accounts w1 = (accounts w ++ [new_account' ctx params w])%list
    | Throw _ => False
    | Ok doc =>
        accounts w1 = (accounts w ++ [new_account' ctx params w])%list
        /\ doc !! "id" = Some (VId (next_id w))
        /\ doc !! "email" = Some (VStr (p_email params))
        /\ doc !! "password" = None
        /\ doc !! "verificationToken" = None
        /\ (doc !! "token" = None <-> accounts_verification_enabled config = true)
    end.
Proof.
  intros ctx params w w1 r. rewrite register_run.
  destruct (register_refusal config params w) as [type|].
  { intros [= <- <-]. now split. }
  cbv zeta.
  pose proof (transformDocuments_answer (new_account' ctx params w)) as Hdoc.
  cbv zeta in Hdoc.
  destruct (accounts_verification_enabled config) eqn:Hver.
  - intros [= <- <-]. destruct (Hdoc None) as (H1 & H2 & _ & H4 & H5 & H6).
    simpl in H4. do 5 (split; [assumption || reflexivity|]). now split.
  - destruct (jwt_sign _ _ _ _ _) as [t|]; intros [= <- <-].
    + destruct (Hdoc (Some t)) as (H1 & H2 & _ & H4 & H5 & H6).
      simpl in H4. do 5 (split; [assumption || reflexivity|]).
      rewrite H4. split; discriminate.
    + now repeat split.
Qed.

(** X9.  When every check of [register] passes, the verification
    feature is off and no JWT secret is configured, [register] throws the
    retryable UNABLE_GENERATE_TOKEN error after the account has been
    inserted and the "welcome" mail started: the account stays, and a retry
    with the same email throws ERR_EMAIL_EXISTS. *)
Theorem register_keeps_account_when_signing_fails :
  forall (ctx ctx2 : Ctx) (params params2 : RegisterParams) (w : World),
    register_refusal config params w = None ->
    accounts_verification_enabled config = false ->
    JWT_SECRET env = None ->
    p_email params2 = p_email params ->
    let user := new_account' ctx params w in
    let w1 := after_register config ctx w user in
    register' ctx params w
    = (Throw (MoleculerRetryableError 500 "UNABLE_GENERATE_TOKEN"), w1)
    /\ accounts w1 = (accounts w ++ [user])%list
    /\ register' ctx2 params2 w1
       = (Throw (MoleculerClientError 400 "ERR_EMAIL_EXISTS"), w1).
Proof.
  intros ctx ctx2 params params2 w Hok Hver Hkey Hemail user w1.
  split; [|split; [reflexivity|]].
  - rewrite register_run, Hok, Hver. cbv zeta. now rewrite Hkey.
  - rewrite register_run. unfold register_refusal in *.
    destruct (accounts_signup_enabled config); [|discriminate].
    cbn [negb] in *. rewrite found_is_Some in *. rewrite Hemail.
    cbn [accounts w1 after_register]. rewrite find_first_app.
    destruct (find_first _ (accounts w)); [reflexivity|].
    cbn [matches email user new_account].
    now rewrite bool_decide_eq_true_2.
Qed.

(** X10.  Once [register] has answered with a document, any later
    [register] with the same email throws ERR_EMAIL_EXISTS and leaves the
    world as it is. *)
Theorem register_same_email_rejected :
  forall (ctx ctx2 : Ctx) (params params2 : RegisterParams) (w w1 : World)
         (doc : gmap string Value),
    register' ctx params w = (Ok doc, w1) ->
    p_email params2 = p_email params ->
    register' ctx2 params2 w1
    = (Throw (MoleculerClientError 400 "ERR_EMAIL_EXISTS"), w1).
Proof.
  intros ctx ctx2 params params2 w w1 doc Hrun Hemail.
  rewrite register_run in Hrun.
  destruct (register_refusal config params w) eqn:Hok; [discriminate|].
  cbv zeta in Hrun.
  assert (Hw1 : w1 = after_register config ctx w (new_account' ctx params w)).
  { destruct (accounts_verification_enabled config);
      [|destruct (jwt_sign _ _ _ _ _)]; now inversion Hrun. }
  rewrite register_run. unfold register_refusal in *.
  destruct (accounts_signup_enabled config); [|discriminate].
  cbn [negb] in *. rewrite found_is_Some in *. rewrite Hemail, Hw1.
  cbn [accounts after_register]. rewrite find_first_app.
  destruct (find_first _ (accounts w)); [reflexivity|].
  cbn [matches email new_account].
  now rewrite bool_decide_eq_true_2.
Qed.

(** X11.  The answer of [register] and the accounts it stores do not
    depend on the mail service: two calls at the same instant, one with the
    mail action answering and one with it failing, give the same answer and
    the same collection. *)
Theorem register_ignores_mail_outcome :
  forall (ctx ctx2 : Ctx) (params : RegisterParams) (w : World),
    now ctx2 = now ctx ->
    fst (register' ctx2 params w) = fst (register' ctx params w)
    /\ accounts (snd (register' ctx2 params w))
       = accounts (snd (register' ctx params w)).
Proof.
  intros ctx ctx2 params w Hnow. rewrite !register_run.
  destruct (register_refusal config params w); [now split|].
  cbv zeta.
  assert (new_account' ctx2 params w = new_account' ctx params w) as ->.
  { unfold new_account. now rewrite Hnow. }
  rewrite Hnow.
  destruct (accounts_verification_enabled config); [now split|].
  destruct (jwt_sign _ _ _ _ _); now split.
Qed.

(** *** Login, step by step *)

Lemma login_query_email (e : string) (a : Account) :
  email a = e -> matches (login_query config e) a = true.
Proof.
  intros He. unfold login_query.
  destruct (accounts_username_enabled config); simpl;
    rewrite (bool_decide_eq_true_2 _ He); reflexivity.
Qed.

(** Password login on an account it finds verified and enabled: the
    password check, then the two-factor check, then the token. *)
Lemma login_password_run key ttl (ctx : Ctx) (params : LoginParams) (w : World)
    (user : Account) (pw h : string) :
  signing config env key ttl ->
  find_first (matches (login_query config (l_email params))) (accounts w)
  = Some user ->
  verified user = true ->
  status user = 1 ->
  passwordless user = false ->
  password user = Some h ->
  l_password params = Some pw ->
  pw <> EmptyString ->
  login' ctx params w
  = if negb (bcrypt_compare pw h) then
      (Throw (MoleculerClientError 400 "ERR_WRONG_PASSWORD"), w)
    else if totp_on user && negb (truthy (l_token params)) then
      (Throw (MoleculerClientError 400 "ERR_MISSING_2FA_CODE"), w)
    else if totp_on user
            && negb (verify2FA (totp user ≫= totp_secret) (l_token params)) then
      (Throw (MoleculerClientError 400 "TWOFACTOR_INVALID_TOKEN"), w)
    else (Ok (LoginToken (signed_token hmac key ttl (_id user) (now ctx))), w).
Proof.
  intros Hs Hfind Hv Hst Hpl Hh Hpw Hne.
  unfold login, bcrypt_compare_stored. mrun.
  rewrite Hfind, Hv, Hst, Hpl, Hh, Hpw, (truthy_Some pw Hne). mrun.
  destruct (bcrypt_compare pw h); mrun; [|reflexivity].
  destruct (totp_on user); mrun; [|now rewrite (getToken_signed key ttl)].
  destruct (truthy (l_token params)); mrun; [|reflexivity].
  destruct (verify2FA _ (l_token params)); mrun; [|reflexivity].
  now rewrite (getToken_signed key ttl).
Qed.


(** The magic-link branch of [login]: the token is stored before the mail
    is sent, and a failing mail call surfaces as the error of [login]. *)
Lemma login_magic_link_run (ctx : Ctx) (params : LoginParams) (w : World)
    (user : Account) :
  accounts_passwordless_enabled config = true ->
  mail_enabled config = true ->
  find_first (matches (login_query config (l_email params))) (accounts w)
  = Some user ->
  resolves w user ->
  verified user = true ->
  status user = 1 ->
  truthy (l_password params) = false ->
  let tok := randomBytes_hex (entropy w) 25 in
  let stored :=
    update_first (_id user)
      (apply_update
         [Set_passwordlessToken tok;
          Set_passwordlessTokenExpires
            (js_add_env (now ctx) (ACCOUNTS_PASSWORDLESS_TOKEN_EXPIRES env))])
      (accounts w) in
  login' ctx params w
  = if mail_up ctx then
      (Ok (LoginPasswordless (email user)),
       {| accounts := stored; next_id := next_id w; entropy := S (entropy w);
          outbox := (outbox w ++ [{| mail_to := email user;
                                     mail_template := "magic-link";
                                     mail_token := Some tok |}])%list |})
    else
      (Throw (ServiceError "mail.send"),
       {| accounts := stored; next_id := next_id w; entropy := S (entropy w);
          outbox := outbox w |}).
Proof.
  intros Hpl Hmail Hfind Hres Hv Hst Hnopw tok stored.
  assert (Hid1 : find_first (has_id (_id user)) stored
                 = Some (apply_update
                           [Set_passwordlessToken tok;
                            Set_passwordlessTokenExpires
                              (js_add_env (now ctx)
                                 (ACCOUNTS_PASSWORDLESS_TOKEN_EXPIRES env))] user)).
  { unfold stored. rewrite find_id_update_first by apply apply_update_id.
    unfold resolves in Hres. now rewrite Hres. }
  unfold login. mrun. rewrite Hfind, Hv, Hst, Hnopw, Hpl, Hmail.
  rewrite andb_false_r. mrun.
  unfold sendMagicLink, generateToken, draw, sendMail, post. mrun.
  fold tok. fold stored. rewrite Hid1, Hmail. mrun.
  destruct (mail_up ctx); reflexivity.
Qed.

(** The account a magic link was stored on answers the lookup by the
    token, when no account held the token before. *)
Lemma magic_link_token_found (w : World) (user : Account) (tok : string)
    (e : jsnum) :
  resolves w user ->
  find_first (matches (Q_passwordlessToken tok)) (accounts w) = None ->
  find_first (matches (Q_passwordlessToken tok))
    (update_first (_id user)
       (apply_update [Set_passwordlessToken tok; Set_passwordlessTokenExpires e])
       (accounts w))
  = Some (apply_update [Set_passwordlessToken tok; Set_passwordlessTokenExpires e]
            user).
Proof.
  intros Hres Hnone. apply find_update_first_new; [exact Hnone|exact Hres|].
  simpl. now apply bool_decide_eq_true_2.
Qed.



(** *** Registration, verification, login *)

Lemma verify_run key ttl (ctx : Ctx) (tok : string) (w : World) (user : Account) :
  signing config env key ttl ->
  find_first (matches (Q_verificationToken tok)) (accounts w) = Some user ->
  resolves w user ->
  verify' ctx tok w
  = (Ok {| token := signed_token hmac key ttl (_id user) (now ctx) |},
     {| accounts :=
          update_first (_id user)
            (apply_update [Set_verified true; Set_verificationToken_null])
            (accounts w);
        next_id := next_id w; entropy := entropy w;
        outbox := posted config ctx (outbox w)
                    {| mail_to := email user; mail_template := "welcome";
                       mail_token := None |} |}).
Proof.
  intros Hs Hfind Hres.
  assert (Hid1 : find_first (has_id (_id user))
                   (update_first (_id user)
                      (apply_update [Set_verified true; Set_verificationToken_null])
                      (accounts w))
                 = Some (apply_update
                           [Set_verified true; Set_verificationToken_null] user)).
  { rewrite find_id_update_first by apply apply_update_id.
    unfold resolves in Hres. now rewrite Hres. }
  unfold verify. mrun. rewrite Hfind. mrun. rewrite Hid1.
  rewrite sendMail_posted. now rewrite (getToken_signed key ttl).
Qed.

(** X15.  Registration under the verification feature, end to end:
    [register] answers without a token and stores the account unverified;
    [login] with the registered password is refused with
    ERR_ACCOUNT_NOT_VERIFIED; [verify] with the token that was mailed
    returns a session token; after that the same [login] returns one
    too. *)
Theorem register_verify_login :
  forall (key : string) (ttl : Z) (ctx ctx2 ctx3 : Ctx)
         (params : RegisterParams) (pw : string) (w : World),
    signing config env key ttl ->
    (forall n p, bcrypt_compare p (bcrypt_hash n p) = true) ->
    register_refusal config params w = None ->
    accounts_verification_enabled config = true ->
    p_password params = Some pw ->
    pw <> EmptyString ->
    let vtok := randomBytes_hex (S (entropy w)) 25 in
    find_first (has_id (next_id w)) (accounts w) = None ->
    find_first (matches (Q_verificationToken vtok)) (accounts w) = None ->
    find_first (matches (login_query config (p_email params))) (accounts w)
    = None ->
    let user := new_account' ctx params w in
    let w1 := after_register config ctx w user in
    let credentials :=
      {| l_email := p_email params; l_password := Some pw; l_token := None |} in
    exists (doc : gmap string Value) (w2 : World),
      register' ctx params w = (Ok doc, w1)
      /\ doc !! "token" = None
      /\ outbox w1
         = posted config ctx (outbox w)
             {| mail_to := p_email params; mail_template := "activate";
                mail_token := Some vtok |}
      /\ login' ctx2 credentials w1
         = (Throw (MoleculerClientError 400 "ERR_ACCOUNT_NOT_VERIFIED"), w1)
      /\ verify' ctx2 vtok w1
         = (Ok {| token := signed_token hmac key ttl (next_id w) (now ctx2) |}, w2)
      /\ login' ctx3 credentials w2
         = (Ok (LoginToken (signed_token hmac key ttl (next_id w) (now ctx3))), w2).
Proof.
  intros key ttl ctx ctx2 ctx3 params pw w Hs Hbcrypt Hok Hver Hpw Hne vtok
    Hid Hvt Hlog user w1 credentials.
  assert (Hu_v : verified user = false).
  { unfold user, new_account. simpl. now rewrite Hver. }
  assert (Hu_vt : verificationToken user = Some vtok).
  { unfold user, new_account. simpl. now rewrite Hver. }
  assert (Hu_pl : passwordless user = false).
  { unfold user, new_account. cbn [passwordless].
    now rewrite Hpw, (truthy_Some pw Hne). }
  assert (Hu_pw : password user = Some (bcrypt_hash (entropy w) pw)).
  { unfold user, new_account. cbn [password].
    now rewrite Hpw, (truthy_Some pw Hne). }
  assert (Hfind1 : find_first (matches (login_query config (p_email params)))
                     (accounts w1) = Some user).
  { cbn [accounts w1 after_register]. rewrite find_first_app, Hlog.
    now rewrite login_query_email. }
  assert (Hres1 : resolves w1 user).
  { unfold resolves. cbn [accounts w1 after_register].
    rewrite find_first_app. change (_id user) with (next_id w). rewrite Hid.
    assert (has_id (next_id w) user = true) as -> by now apply has_id_true.
    reflexivity. }
  assert (Hvt1 : find_first (matches (Q_verificationToken vtok)) (accounts w1)
                 = Some user).
  { cbn [accounts w1 after_register]. rewrite find_first_app, Hvt.
    cbn [matches]. now rewrite (bool_decide_eq_true_2 _ Hu_vt). }
  pose proof (verify_run key ttl ctx2 vtok w1 user Hs Hvt1 Hres1) as Hverify.
  match type of Hverify with _ = (_, ?w2') => set (w2 := w2') in * end.
  set (user2 := apply_update [Set_verified true; Set_verificationToken_null] user).
  assert (Hfind2 : find_first (matches (login_query config (p_email params)))
                     (accounts w2) = Some user2).
  { cbn [accounts w2]. apply find_update_first_hit; [|exact Hfind1|exact Hres1].
    intros x. now apply login_query_stable. }
  exists (transformDocuments (to_object user None)), w2.
  split; [|split; [|split; [|split; [|split]]]].
  - rewrite register_run, Hok. cbv zeta. now rewrite Hver.
  - apply (transformDocuments_answer user None).
  - cbn [outbox w1 after_register]. rewrite Hver, Hu_vt. reflexivity.
  - unfold login. mrun. cbn [l_email credentials]. now rewrite Hfind1, Hu_v.
  - exact Hverify.
  - rewrite (login_password_run key ttl ctx3 credentials w2 user2 pw
               (bcrypt_hash (entropy w) pw));
      try (assumption || reflexivity).
    rewrite Hbcrypt. reflexivity.
Qed.

(** *** Social links *)

Lemma with_accounts_same (w : World) : with_accounts w (accounts w) = w.
Proof. now destruct w. Qed.

Lemma update_first_missing (i : nat) (f : Account -> Account) (l : list Account) :
  find_first (has_id i) l = None -> update_first i f l = l.
Proof.
  induction l as [|x l IH]; simpl; [reflexivity|].
  destruct (has_id i x); [discriminate|]. intros H. now rewrite IH.
Qed.

(** X16.  [link] writes [socialLinks[provider]], marks the account
    verified and nulls its verification token, leaving the links to other
    providers alone; [unlink] then removes that entry, so that an account
    with no link to the provider before has its links restored (it stays
    verified).  Both answer the transformed account. *)
Theorem link_then_unlink :
  forall (ctx : Ctx) (id : nat) (provider : string) (profile : Profile)
         (w : World) (user : Account),
    find_first (has_id id) (accounts w) = Some user ->
    let linking := [Set_socialLink provider (socialID profile);
                    Set_verified true; Set_verificationToken_null] in
    let user1 := apply_update linking user in
    let w1 := with_accounts w (update_first id (apply_update linking) (accounts w)) in
    let user2 := apply_update [Unset_socialLink provider] user1 in
    let w2 :=
      with_accounts w1
        (update_first id (apply_update [Unset_socialLink provider]) (accounts w1)) in
    link_action ctx id provider profile w
    = (Ok (Some (transformDocuments (to_object user1 None))), w1)
    /\ socialLinks user1 !! provider = Some (socialID profile)
    /\ (forall p', p' <> provider ->
          socialLinks user1 !! p' = socialLinks user !! p')
    /\ verified user1 = true
    /\ verificationToken user1 = None
    /\ unlink_action ctx (Some id) provider w1
       = (Ok (Some (transformDocuments (to_object user2 None))), w2)
    /\ find_first (has_id id) (accounts w2) = Some user2
    /\ socialLinks user2 = delete provider (socialLinks user)
    /\ (socialLinks user !! provider = None ->
        socialLinks user2 = socialLinks user).
Proof.
  intros ctx id provider profile w user Hfind linking user1 w1 user2 w2.
  assert (Hid1 : find_first (has_id id) (accounts w1) = Some user1).
  { cbn [accounts w1 with_accounts].
    rewrite find_id_update_first by apply apply_update_id. now rewrite Hfind. }
  assert (Hid2 : find_first (has_id id) (accounts w2) = Some user2).
  { cbn [accounts w2 with_accounts].
    rewrite find_id_update_first by apply apply_update_id. now rewrite Hid1. }
  assert (Hlinks2 : socialLinks user2 = delete provider (socialLinks user)).
  { cbn. apply delete_insert_eq. }
  split; [|split; [|split; [|split; [|split; [|split; [|split; [|split]]]]]]].
  - unfold link_action, link. mrun. cbn [accounts w1 with_accounts] in Hid1.
    fold linking. now rewrite Hid1.
  - cbn. apply lookup_insert_eq.
  - intros p' Hne. cbn. now apply lookup_insert_ne.
  - reflexivity.
  - reflexivity.
  - unfold unlink_action, unlink. rewrite !found_is_Some. mrun.
    cbn [accounts w2 with_accounts] in Hid2. now rewrite Hid2.
  - exact Hid2.
  - exact Hlinks2.
  - intros Hnone. rewrite Hlinks2. now apply delete_id.
Qed.

(** X17.  [link] on an id that no account has answers [null] and writes
    nothing.  [unlink] without an id falls back on the caller's
    [ctx.meta.userID], and throws MISSING_USER_ID when there is none. *)
Theorem link_unlink_missing_account :
  forall (ctx : Ctx) (provider : string) (w : World),
    (forall (id : nat) (profile : Profile),
       find_first (has_id id) (accounts w) = None ->
       link_action ctx id provider profile w = (Ok None, w))
    /\ (meta_userID ctx = None ->
        unlink_action ctx None provider w
        = (Throw (MoleculerClientError 400 "MISSING_USER_ID"), w))
    /\ (forall uid : nat,
          meta_userID ctx = Some uid ->
          unlink_action ctx None provider w
          = unlink_action ctx (Some uid) provider w).
Proof.
  intros ctx provider w. split; [|split].
  - intros id profile Hnone. unfold link_action, link. mrun.
    rewrite update_first_missing by exact Hnone.
    now rewrite Hnone, with_accounts_same.
  - intros Hmeta. unfold unlink_action. now rewrite !found_is_Some, Hmeta.
  - intros uid Hmeta. unfold unlink_action. rewrite !found_is_Some, Hmeta.
    reflexivity.
Qed.

(** *** Social login *)

Local Abbreviation with_token' := (with_token config env hmac).

Lemma with_token_run key ttl (ctx : Ctx) (u : Account) (w : World) :
  signing config env key ttl ->
  with_token' ctx (Some u) w
  = (Ok (transformDocuments
           (to_object u (Some (signed_token hmac key ttl (_id u) (now ctx))))),
     w).
Proof.
  intros Hs. unfold with_token. mrun. now rewrite (getToken_signed key ttl).
Qed.

(** X18.  Anonymous social login.  A profile without an email is refused
    with ERR_NO_SOCIAL_EMAIL before any lookup, also when the social
    identity is already linked.  With an email, an identity linked to an
    account whose status is 1 returns that account with a session token and
    writes nothing; linked to an account of another status it throws
    ACCOUNT_DISABLED. *)
Theorem socialLogin_anonymous_linked :
  forall (key : string) (ttl : Z) (ctx : Ctx) (provider : string)
         (profile : Profile) (w : World) (user : Account),
    signing config env key ttl ->
    meta_user ctx = None ->
    find_first (matches (Q_socialLink provider (socialID profile))) (accounts w)
    = Some user ->
    socialLogin' ctx provider profile w
    = if negb (truthy (pr_email profile)) then
        (Throw (MoleculerClientError 400 "ERR_NO_SOCIAL_EMAIL"), w)
      else if status user =? 1 then
        (Ok (transformDocuments
               (to_object user
                  (Some (signed_token hmac key ttl (_id user) (now ctx))))), w)
      else (Throw (MoleculerClientError 400 "ACCOUNT_DISABLED"), w).
Proof.
  intros key ttl ctx provider profile w user Hs Hmeta Hfind.
  unfold socialLogin. rewrite found_is_Some, Hmeta.
  destruct (truthy (pr_email profile)); mrun; [|reflexivity].
  rewrite Hfind. mrun. cbn [fst snd].
  destruct (status user =? 1); mrun; [|reflexivity].
  now rewrite (with_token_run key ttl).
Qed.

(** X19.  Anonymous social login with an identity that is not linked but
    whose profile email is the email of an existing account of status 1:
    the identity is linked to that account, the account is marked verified
    and its verification token nulled whatever they were, and the account
    is returned with a session token; no password is asked. *)
Theorem socialLogin_links_by_email :
  forall (key : string) (ttl : Z) (ctx : Ctx) (provider pe : string)
         (profile : Profile) (w : World) (user : Account),
    signing config env key ttl ->
    meta_user ctx = None ->
    pr_email profile = Some pe ->
    pe <> EmptyString ->
    find_first (matches (Q_socialLink provider (socialID profile))) (accounts w)
    = None ->
    find_first (matches (Q_email pe)) (accounts w) = Some user ->
    resolves w user ->
    status user = 1 ->
    let linking := [Set_socialLink provider (socialID profile);
                    Set_verified true; Set_verificationToken_null] in
    let user1 := apply_update linking user in
    let w1 :=
      with_accounts w
        (update_first (_id user) (apply_update linking) (accounts w)) in
    socialLogin' ctx provider profile w
    = (Ok (transformDocuments
             (to_object user1
                (Some (signed_token hmac key ttl (_id user) (now ctx))))), w1)
    /\ find_first (has_id (_id user)) (accounts w1) = Some user1
    /\ socialLinks user1 !! provider = Some (socialID profile)
    /\ verified user1 = true
    /\ verificationToken user1 = None
    /\ password user1 = password user.
Proof.
  intros key ttl ctx provider pe profile w user Hs Hmeta Hpe Hne Hsocial Hemail
    Hres Hst linking user1 w1.
  assert (Hid1 : find_first (has_id (_id user)) (accounts w1) = Some user1).
  { cbn [accounts w1 with_accounts].
    rewrite find_id_update_first by apply apply_update_id.
    unfold resolves in Hres. now rewrite Hres. }
  split; [|split; [exact Hid1|split; [|repeat split]]].
  - unfold socialLogin, getUserByEmail, link. rewrite found_is_Some, Hmeta, Hpe.
    rewrite (truthy_Some pe Hne). mrun. rewrite Hsocial. mrun.
    rewrite Hemail. mrun. cbn [fst snd]. rewrite Hst. mrun.
    cbn [accounts w1 with_accounts] in Hid1. fold linking. rewrite Hid1.
    now rewrite (with_token_run key ttl).
  - cbn. apply lookup_insert_eq.
Qed.

(** X20.  Social login of a logged-in caller.  An identity linked to
    another account throws ERR_SOCIAL_ACCOUNT_MISMATCH and writes nothing;
    linked to the caller's own account it returns that account with a
    session token; not linked yet, it is linked to the caller's account
    (which becomes verified), and the read of the result throws a TypeError
    when [ctx.meta.userID] names no account.  The account's status is not
    looked at on this path. *)
Theorem socialLogin_logged_in :
  forall (key : string) (ttl : Z) (ctx : Ctx) (mu : MetaUser) (uid : nat)
         (provider : string) (profile : Profile) (w : World),
    signing config env key ttl ->
    meta_user ctx = Some mu ->
    meta_userID ctx = Some uid ->
    let linking := [Set_socialLink provider (socialID profile);
                    Set_verified true; Set_verificationToken_null] in
    let w1 :=
      with_accounts w (update_first uid (apply_update linking) (accounts w)) in
    socialLogin' ctx provider profile w
    = match find_first (matches (Q_socialLink provider (socialID profile)))
              (accounts w) with
      | Some owner =>
          if bool_decide (_id owner = uid) then
            (Ok (transformDocuments
                   (to_object owner
                      (Some (signed_token hmac key ttl (_id owner) (now ctx))))),
             w)
          else
            (Throw (MoleculerClientError 400 "ERR_SOCIAL_ACCOUNT_MISMATCH"), w)
      | None =>
          match find_first (has_id uid) (accounts w) with
          | Some me =>
              (Ok (transformDocuments
                     (to_object (apply_update linking me)
                        (Some (signed_token hmac key ttl (_id me) (now ctx))))),
               w1)
          | None =>
              (Throw (TypeError "Cannot read property '_id' of null"), w)
          end
      end.
Proof.
  intros key ttl ctx mu uid provider profile w Hs Hmeta Huid linking w1.
  unfold socialLogin, link. rewrite found_is_Some, Hmeta, Huid. mrun.
  destruct (find_first (matches _) (accounts w)) as [owner|]; mrun.
  - destruct (decide (_id owner = uid)) as [Heq|Hne].
    + rewrite (bool_decide_eq_true_2 (Some (_id owner) = Some uid))
        by now rewrite Heq.
      rewrite (bool_decide_eq_true_2 _ Heq). mrun.
      now rewrite (with_token_run key ttl).
    + rewrite (bool_decide_eq_false_2 (Some (_id owner) = Some uid))
        by (intros [= H]; now apply Hne).
      now rewrite (bool_decide_eq_false_2 _ Hne).
  - fold linking. rewrite find_id_update_first by apply apply_update_id.
    destruct (find_first (has_id uid) (accounts w)) as [me|] eqn:Hme; cbn [fmap option_fmap option_map].
    + rewrite (with_token_run key ttl) by assumption.
      now rewrite apply_update_id.
    + unfold with_token, getToken. mrun.
      rewrite update_first_missing by exact Hme.
      now rewrite with_accounts_same.
Qed.

Lemma update_first_app_new (i : nat) (f : Account -> Account) (l : list Account)
    (a : Account) :
  find_first (has_id i) l = None ->
  has_id i a = true ->
  update_first i f (l ++ [a]) = (l ++ [f a])%list.
Proof.
  intros Hnone Ha. induction l as [|x l IH]; simpl in *.
  - now rewrite Ha.
  - destruct (has_id i x); [discriminate|]. now rewrite IH.
Qed.

Lemma doc_id_answer (user : Account) (tok : option Jwt) :
  doc_id (transformDocuments (to_object user tok)) = Some (_id user).
Proof.
  unfold doc_id. now rewrite (proj1 (transformDocuments_answer user tok)).
Qed.


(** *** Two-factor authentication, continued *)

Local Abbreviation disable2Fa' := (disable2Fa verify2FA).
Local Abbreviation generate2FaToken' :=
  (generate2FaToken_action generate2FaToken).


(** X23.  [enable2Fa] without a code.  On an account whose 2FA is off it
    draws a new secret and stores it with [totp.enabled = false],
    replacing a secret that was pending.  On an account whose 2FA is on it
    provisions nothing: it goes on to check the missing code against the
    stored secret, and the secret stays whatever [verify2FA] answers. *)
Theorem enable2Fa_without_code :
  forall (ctx : Ctx) (uid : nat) (mu : MetaUser) (nocode : option string)
         (w : World) (user : Account),
    meta_userID ctx = Some uid ->
    meta_user ctx = Some mu ->
    find_first (has_id uid) (accounts w) = Some user ->
    truthy nocode = false ->
    let fresh := speakeasy_generateSecret (entropy w) 10 in
    (totp_on user = false ->
       exists w1 : World,
         enable2Fa' ctx nocode w
         = (Ok (Provisioned (secret_base32 fresh)
                  (speakeasy_otpauthURL (secret_ascii fresh) (meta_email mu)
                     (site_name config))), w1)
         /\ (totp <$> find_first (has_id uid) (accounts w1))
            = Some (Some {| totp_enabled := false;
                            totp_secret := Some (secret_base32 fresh) |}))
    /\ (forall t : Totp,
          totp user = Some t ->
          totp_enabled t = true ->
          exists (r : Result Enable2FaResult) (w1 : World),
            enable2Fa' ctx nocode w = (r, w1)
            /\ (forall s u, r <> Ok (Provisioned s u))
            /\ entropy w1 = entropy w
            /\ (totp <$> find_first (has_id uid) (accounts w1))
               = Some (Some {| totp_enabled := true;
                               totp_secret := totp_secret t |})).
Proof.
  intros ctx uid mu nocode w user Huid Hmu Hfind Hnocode fresh. split.
  - intros Hoff. eexists. split.
    + unfold enable2Fa, draw. mrun. rewrite Huid, Hfind, Hnocode, Hoff, Hmu.
      reflexivity.
    + cbn [accounts with_accounts].
      rewrite find_id_update_first by apply apply_update_id.
      now rewrite Hfind.
  - intros t Ht Hen.
    assert (Hon : totp_on user = true) by (unfold totp_on; now rewrite Ht).
    unfold enable2Fa. mrun. rewrite Huid, Hfind, Hnocode, Hon, Ht. mrun.
    destruct (verify2FA (totp_secret t) nocode); mrun.
    + eexists. eexists. split; [reflexivity|]. split; [discriminate|].
      split; [reflexivity|]. cbn [accounts with_accounts].
      rewrite find_id_update_first by apply apply_update_id.
      rewrite Hfind. cbn. unfold totp_or_empty. rewrite Ht. reflexivity.
    + eexists. eexists. split; [reflexivity|]. split; [discriminate|].
      split; [reflexivity|]. rewrite Hfind. cbn. rewrite Ht.
      destruct t; simpl in *. now subst.
Qed.


(** *** Resolving a session token *)

(** X25.  What the [resolveToken] handler answers for a session token
    the service issued for account id [id]: INVALID_TOKEN from the second
    the token's time to live has elapsed; otherwise USER_NOT_FOUND when no
    account has that id, ERR_ACCOUNT_NOT_VERIFIED for an unverified
    account, USER_DISABLED for an account whose status is not 1 (so a
    disabled account's sessions stop resolving), and else the transformed
    account.  All errors are client errors of code 401; nothing is
    written. *)
Theorem resolveToken_of_session_token :
  forall (key : string) (ttl : Z) (issued ctx : Ctx) (id : nat) (w : World),
    signing config env key ttl ->
    resolveToken' ctx (signed_token hmac key ttl id (now issued)) w
    = if now issued / 1000 + ttl <=? now ctx / 1000 then
        (Throw (MoleculerClientError 401 "INVALID_TOKEN"), w)
      else
        match find_first (has_id id) (accounts w) with
        | None => (Throw (MoleculerClientError 401 "USER_NOT_FOUND"), w)
        | Some user =>
            if negb (verified user) then
              (Throw (MoleculerClientError 401 "ERR_ACCOUNT_NOT_VERIFIED"), w)
            else if negb (status user =? 1) then
              (Throw (MoleculerClientError 401 "USER_DISABLED"), w)
            else (Ok (transformDocuments (to_object user None)), w)
        end.
Proof.
  intros key ttl issued ctx id w (Hk & Hne & Ht).
  unfold resolveToken, verifyJWT. mrun. rewrite Hk, jwt_verify_signed by assumption.
  destruct (now issued / 1000 + ttl <=? now ctx / 1000); mrun; [reflexivity|].
  cbn [jwt_id].
  destruct (find_first (has_id id) (accounts w)) as [user|]; [|reflexivity].
  destruct (verified user); mrun; [|reflexivity].
  destruct (status user =? 1); reflexivity.
Qed.

(** *** Invariants of the world, over every action *)

Section Invariant.

Variable I : World -> Prop.

(** The invariant reads the collection and the next id only. *)
Hypothesis I_frame :
  forall w w', accounts w' = accounts w -> next_id w' = next_id w -> I w -> I w'.

(** Every update document keeps it. *)
Hypothesis I_update :
  forall w i ops,
    I w -> I (with_accounts w (update_first i (apply_update ops) (accounts w))).

Lemma keeps_ret {A : Type} (a : A) : keeps I (mret a).
Proof. intros w Hw. exact Hw. Qed.

Lemma keeps_throw {A : Type} (e : Error) : keeps I (@throw A e).
Proof. intros w Hw. exact Hw. Qed.

Lemma keeps_bind {A B : Type} (m : M A) (f : A -> M B) :
  keeps I m -> (forall a, keeps I (f a)) -> keeps I (m ≫= f).
Proof.
  intros Hm Hf w Hw. unfold mbind, M_bind. specialize (Hm w Hw).
  destruct (m w) as [[a|e] w1]; simpl in *; [|exact Hm]. now apply Hf.
Qed.

Lemma keeps_nowait {A : Type} (m : M A) : keeps I m -> keeps I (nowait m).
Proof. intros Hm w Hw. exact (Hm w Hw). Qed.

Lemma keeps_findOne (q : Query) : keeps I (findOne q).
Proof. intros w Hw. exact Hw. Qed.

Lemma keeps_findById (i : option nat) : keeps I (findById i).
Proof. intros w Hw. exact Hw. Qed.

Lemma keeps_draw : keeps I draw.
Proof. intros w Hw. now apply (I_frame w). Qed.

Lemma keeps_post (m : Mail) : keeps I (post m).
Proof. intros w Hw. now apply (I_frame w). Qed.

Lemma keeps_updateById (i : option nat) (ops : list SetOp) :
  keeps I (updateById i ops).
Proof.
  intros w Hw. unfold updateById. destruct i as [i|]; simpl; [|exact Hw].
  now apply I_update.
Qed.

Ltac keeps_tac :=
  repeat
    match goal with
    | |- keeps _ (mret _) => apply keeps_ret
    | |- keeps _ (throw _) => apply keeps_throw
    | |- keeps _ (_ ≫= _) => apply keeps_bind; [|intros ?]
    | |- keeps _ (nowait _) => apply keeps_nowait
    | |- keeps _ (findOne _) => apply keeps_findOne
    | |- keeps _ (findById _) => apply keeps_findById
    | |- keeps _ draw => apply keeps_draw
    | |- keeps _ (post _) => apply keeps_post
    | |- keeps _ (updateById _ _) => apply keeps_updateById
    | |- keeps _ (if ?c then _ else _) => destruct c
    | |- keeps _ (match ?x with _ => _ end) => destruct x
    | |- keeps _ _ => solve [auto]
    end.

Lemma keeps_sendMail (ctx : Ctx) (user : option Account) (t : string)
    (d : option string) : keeps I (sendMail config ctx user t d).
Proof. unfold sendMail. keeps_tac. Qed.

Lemma keeps_getToken (ctx : Ctx) (user : option Account) :
  keeps I (getToken' ctx user).
Proof. unfold getToken, generateJWT. keeps_tac. Qed.

(** Every action but [register] and [socialLogin], which insert, and
    every action at all once [register] is known to keep the invariant. *)
Lemma keeps_call :
  (forall ctx params, keeps I (register' ctx params)) ->
  forall (ctx : Ctx) (r : Request) (w : World), I w -> I (call' ctx r w).
Proof.
  intros Hreg ctx r w.
  pose proof keeps_sendMail as Hmail. pose proof keeps_getToken as Htok.
  destruct r; unfold call;
    match goal with |- _ -> I (snd (?m w)) =>
      generalize w; change (keeps I m)
    end.
  - unfold resolveToken, verifyJWT. keeps_tac.
  - apply Hreg.
  - unfold verify. keeps_tac.
  - unfold with_entity, disable. keeps_tac.
  - unfold with_entity, enable. keeps_tac.
  - unfold passwordless_action. keeps_tac.
  - unfold forgotpassword, generateToken, getUserByEmail. keeps_tac.
  - unfold resetpassword, bcrypt_hash10. keeps_tac.
  - unfold link_action, link. keeps_tac.
  - unfold unlink_action, unlink. keeps_tac.
  - unfold login, bcrypt_compare_stored, sendMagicLink, generateToken. keeps_tac.
  - unfold socialLogin, with_token, getUserByEmail, link. keeps_tac.
  - unfold enable2Fa. keeps_tac.
  - unfold disable2Fa. keeps_tac.
  - unfold generate2FaToken_action. keeps_tac.
Qed.

End Invariant.

(** *** The collection stays well formed *)

Lemma apply_set_email (op : SetOp) (a : Account) :
  email (apply_set op a) = email a.
Proof. destruct op; reflexivity. Qed.

Lemma apply_set_username (op : SetOp) (a : Account) :
  username (apply_set op a) = username a.
Proof. destruct op; reflexivity. Qed.

Lemma apply_update_email (ops : list SetOp) (a : Account) :
  email (apply_update ops a) = email a.
Proof.
  unfold apply_update. revert a.
  induction ops as [|op ops IH]; intros a; simpl; [reflexivity|].
  now rewrite IH, apply_set_email.
Qed.

Lemma apply_update_username (ops : list SetOp) (a : Account) :
  username (apply_update ops a) = username a.
Proof.
  unfold apply_update. revert a.
  induction ops as [|op ops IH]; intros a; simpl; [reflexivity|].
  now rewrite IH, apply_set_username.
Qed.

Lemma map_update_first {K : Type} (key : Account -> K) (i : nat)
    (f : Account -> Account) (l : list Account) :
  (forall a, key (f a) = key a) ->
  map key (update_first i f l) = map key l.
Proof.
  intros Hkey. induction l as [|x l IH]; simpl; [reflexivity|].
  destruct (has_id i x); simpl; [now rewrite Hkey|now rewrite IH].
Qed.

Lemma usernames_update_first (i : nat) (f : Account -> Account)
    (l : list Account) :
  (forall a, username (f a) = username a) ->
  usernames (update_first i f l) = usernames l.
Proof.
  intros Hkey. unfold usernames. induction l as [|x l IH]; simpl; [reflexivity|].
  destruct (has_id i x); simpl; [now rewrite Hkey|now rewrite IH].
Qed.

Lemma NoDup_snoc {K : Type} (l : list K) (x : K) :
  List.NoDup l -> ~ In x l -> List.NoDup (l ++ [x]).
Proof.
  intros Hnd Hx. induction Hnd as [|y l Hy Hnd IH]; simpl.
  - constructor; [intros []|constructor].
  - constructor.
    + rewrite in_app_iff. intros [Hin|[Heq|[]]]; [now apply Hy|].
      apply Hx. now left.
    + apply IH. intros Hin. apply Hx. now right.
Qed.

Lemma find_email_None (e : string) (l : list Account) :
  find_first (matches (Q_email e)) l = None -> ~ In e (map email l).
Proof.
  induction l as [|x l IH]; simpl; [intros _ []|].
  destruct (bool_decide (email x = e)) eqn:Hx; [discriminate|].
  apply bool_decide_eq_false in Hx. intros Hnone [Heq|Hin]; [now apply Hx|].
  now apply IH.
Qed.

Lemma find_username_None (u : string) (l : list Account) :
  find_first (matches (Q_username u)) l = None -> ~ In u (usernames l).
Proof.
  unfold usernames. induction l as [|x l IH]; simpl; [intros _ []|].
  destruct (bool_decide (username x = Some u)) eqn:Hx; [discriminate|].
  apply bool_decide_eq_false in Hx. intros Hnone Hin.
  apply in_app_iff in Hin. destruct Hin as [Hin|Hin]; [|now apply IH].
  destruct (username x) as [v|]; [|destruct Hin].
  destruct Hin as [->|[]]. now apply Hx.
Qed.

Lemma store_wf_frame (w w' : World) :
  accounts w' = accounts w -> next_id w' = next_id w -> store_wf w -> store_wf w'.
Proof. unfold store_wf. intros -> ->. exact (fun H => H). Qed.

Lemma store_wf_update (w : World) (i : nat) (ops : list SetOp) :
  store_wf w ->
  store_wf (with_accounts w (update_first i (apply_update ops) (accounts w))).
Proof.
  unfold store_wf. cbn [accounts next_id with_accounts].
  intros (Hid & Hlt & Hem & Hun).
  rewrite !map_update_first by
    (intros a; apply apply_update_id || apply apply_update_email).
  rewrite usernames_update_first by (intros a; apply apply_update_username).
  repeat split; try assumption.
  induction (accounts w) as [|x l IH]; simpl; [constructor|].
  inversion Hlt as [|? ? Hx Hl]; subst.
  destruct (has_id i x); constructor; try assumption.
  - now rewrite apply_update_id.
  - apply IH; try assumption; simpl in Hid, Hem, Hun.
    + now inversion Hid.
    + now inversion Hem.
    + unfold usernames in Hun. simpl in Hun.
      apply List.NoDup_app_remove_l in Hun. exact Hun.
Qed.

Lemma store_wf_register (ctx : Ctx) (params : RegisterParams) :
  keeps store_wf (register' ctx params).
Proof.
  intros w Hwf. rewrite register_run.
  destruct (register_refusal config params w) eqn:Hok; [exact Hwf|].
  assert (Hgoal : store_wf (after_register config ctx w
                              (new_account' ctx params w))).
  { destruct Hwf as (Hid & Hlt & Hem & Hun).
    unfold register_refusal in Hok.
    destruct (accounts_signup_enabled config); [|discriminate].
    cbn [negb] in Hok. rewrite !found_is_Some in Hok.
    destruct (find_first (matches (Q_email (p_email params))) (accounts w))
      eqn:Hemail; [discriminate|].
    unfold store_wf. cbn [accounts next_id after_register].
    rewrite !map_app. cbn [map _id email new_account].
    repeat split.
    - apply NoDup_snoc; [exact Hid|]. intros Hin.
      apply in_map_iff in Hin. destruct Hin as (a & Ha & Hin).
      rewrite Forall_forall in Hlt.
      specialize (Hlt a (proj2 (list_elem_of_In _ _) Hin)). lia.
    - apply Forall_app. split.
      + eapply Forall_impl; [exact Hlt|]. intros a Ha. simpl in Ha. lia.
      + constructor; [simpl; lia|constructor].
    - apply NoDup_snoc; [exact Hem|]. now apply find_email_None.
    - unfold usernames. rewrite flat_map_app. cbn [flat_map username new_account].
      destruct (accounts_username_enabled config); cbn [andb] in Hok;
        [|now rewrite !app_nil_r].
      destruct (truthy (p_username params)) eqn:Htr; [|discriminate].
      cbn [negb] in Hok.
      destruct (p_username params) as [u|]; [|discriminate].
      cbn [default id] in Hok. unfold default in Hok.
      destruct (find_first (matches (Q_username _)) (accounts w)) eqn:Hu;
        [discriminate|].
      rewrite app_nil_r. apply NoDup_snoc; [exact Hun|].
      now apply find_username_None. }
  cbv zeta. destruct (accounts_verification_enabled config); [exact Hgoal|].
  destruct (jwt_sign _ _ _ _ _); exact Hgoal.
Qed.


(** *** Accounts are never removed or re-identified *)

Lemma apply_set_fixed_fields (op : SetOp) (a : Account) :
  fixed_fields (apply_set op a) = fixed_fields a.
Proof. destruct op; reflexivity. Qed.

Lemma apply_update_fixed_fields (ops : list SetOp) (a : Account) :
  fixed_fields (apply_update ops a) = fixed_fields a.
Proof.
  unfold apply_update. revert a.
  induction ops as [|op ops IH]; intros a; simpl; [reflexivity|].
  now rewrite IH, apply_set_fixed_fields.
Qed.

Lemma extends_register (l : list Account) (ctx : Ctx) (params : RegisterParams) :
  keeps (fun w => extends l (accounts w)) (register' ctx params).
Proof.
  intros w [added Hl]. rewrite register_run.
  destruct (register_refusal config params w); [now exists added|].
  assert (Hgoal : extends l (accounts (after_register config ctx w
                                         (new_account' ctx params w)))).
  { exists (added ++ [new_account' ctx params w])%list.
    cbn [accounts after_register]. now rewrite !map_app, Hl, app_assoc. }
  cbv zeta. destruct (accounts_verification_enabled config); [exact Hgoal|].
  destruct (jwt_sign _ _ _ _ _); exact Hgoal.
Qed.


End Properties.

(** * The statements on the sample deployment *)

Ltac closed :=
  first [ reflexivity | discriminate | vm_compute; reflexivity
        | repeat split; first [reflexivity | discriminate] ].

Lemma jwt_issue_verify_roundtrip_witness :
  exists t : Jwt,
    generateJWT Sample.config Sample.env Sample.hmac (Sample.ctx_at 5000) 1 None
      (Sample.world_of [])
    = (Ok t, Sample.world_of [])
    /\ (forall (later : Ctx) (w' : World),
          now later / 1000 < now (Sample.ctx_at 5000) / 1000 + 3600 ->
          exists decoded,
            verifyJWT Sample.env Sample.hmac later t w' = (Ok decoded, w')
            /\ jwt_id decoded = 1%nat)
    /\ (forall (later : Ctx) (w' : World),
          now (Sample.ctx_at 5000) / 1000 + 3600 <= now later / 1000 ->
          verifyJWT Sample.env Sample.hmac later t w'
          = (Throw (MoleculerClientError 401 "INVALID_TOKEN"), w')).
Proof.
  apply (jwt_issue_verify_roundtrip Sample.config Sample.env Sample.hmac "k");
    closed.
Defined.

Lemma login_password_witness :
  login Sample.config Sample.env Sample.bcrypt_compare Sample.randomBytes_hex
    Sample.hmac Sample.verify2FA (Sample.anonymous_at 5000)
    {| l_email := "alice@x.com"; l_password := Some "longenough1";
       l_token := None |}
    (Sample.world_of [Sample.alice])
  = (Ok (LoginToken (signed_token Sample.hmac "k" 3600 1 5000)),
     Sample.world_of [Sample.alice])
  /\ login Sample.config Sample.env Sample.bcrypt_compare Sample.randomBytes_hex
       Sample.hmac Sample.verify2FA (Sample.anonymous_at 5000)
       {| l_email := "alice@x.com"; l_password := Some "not the password";
          l_token := None |}
       (Sample.world_of [Sample.alice])
     = (Throw (MoleculerClientError 400 "ERR_WRONG_PASSWORD"),
        Sample.world_of [Sample.alice]).
Proof.
  split.
  - refine (proj1 (proj1 (login_password Sample.config Sample.env
      Sample.bcrypt_compare Sample.randomBytes_hex Sample.hmac Sample.verify2FA
      "k" 3600 (Sample.anonymous_at 5000) "alice@x.com" "longenough1" None
      (Sample.world_of [Sample.alice]) Sample.alice "$2b$10$longenough1"
      _ _ _ _ _ _ _ _) _)); closed.
  - refine (proj2 (login_password Sample.config Sample.env
      Sample.bcrypt_compare Sample.randomBytes_hex Sample.hmac Sample.verify2FA
      "k" 3600 (Sample.anonymous_at 5000) "alice@x.com" "not the password" None
      (Sample.world_of [Sample.alice]) Sample.alice "$2b$10$longenough1"
      _ _ _ _ _ _ _ _) _); closed.
Defined.

Lemma passwordless_token_replay_witness :
  passwordless_action Sample.config Sample.env Sample.hmac
    (Sample.anonymous_at 5000) "m0" (Sample.world_of [Sample.alice_magic])
  = (Ok {| token := signed_token Sample.hmac "k" 3600 1 5000 |},
     Sample.world_of [Sample.alice_magic])
  /\ map passwordlessToken (accounts (Sample.world_of [Sample.alice_magic]))
     = [Some "m0"]
  /\ exists w2 : World,
       passwordless_action Sample.config Sample.env Sample.hmac
         (Sample.anonymous_at 6000) "m0" (Sample.world_of [Sample.alice_magic])
       = (Ok {| token := signed_token Sample.hmac "k" 3600 1 6000 |}, w2).
Proof.
  apply (passwordless_token_replay Sample.config Sample.env Sample.hmac "k" 3600
           (Sample.anonymous_at 5000) (Sample.anonymous_at 6000) "m0"
           (Sample.world_of [Sample.alice_magic]) Sample.alice_magic);
    closed.
Defined.

Lemma passwordless_skips_2fa_witness :
  passwordless_action Sample.config Sample.env Sample.hmac
    (Sample.anonymous_at 5000) "m0" (Sample.world_of [Sample.alice_2fa])
  = (Ok {| token := signed_token Sample.hmac "k" 3600 1 5000 |},
     Sample.world_of [Sample.alice_2fa])
  /\ login Sample.config Sample.env Sample.bcrypt_compare Sample.randomBytes_hex
       Sample.hmac Sample.verify2FA (Sample.anonymous_at 5000)
       {| l_email := "alice@x.com"; l_password := Some "longenough1";
          l_token := None |}
       (Sample.world_of [Sample.alice_2fa])
     = (Throw (MoleculerClientError 400 "ERR_MISSING_2FA_CODE"),
        Sample.world_of [Sample.alice_2fa]).
Proof.
  split.
  - refine (proj1 (passwordless_skips_2fa Sample.config Sample.env
      Sample.bcrypt_compare Sample.randomBytes_hex Sample.hmac Sample.verify2FA
      "k" 3600 (Sample.anonymous_at 5000) "m0"
      (Sample.world_of [Sample.alice_2fa]) Sample.alice_2fa _ _ _ _ _ _));
      closed.
  - refine (proj2 (passwordless_skips_2fa Sample.config Sample.env
      Sample.bcrypt_compare Sample.randomBytes_hex Sample.hmac Sample.verify2FA
      "k" 3600 (Sample.anonymous_at 5000) "m0"
      (Sample.world_of [Sample.alice_2fa]) Sample.alice_2fa _ _ _ _ _ _)
      "alice@x.com" "longenough1" "$2b$10$longenough1" _ _ _ _ _ _);
      closed.
Defined.



Lemma register_with_password_witness :
  exists (doc : gmap string Value) (w1 : World) (user : Account),
    register Sample.config Sample.env Sample.bcrypt_hash Sample.randomBytes_hex
      Sample.md5_hex Sample.hmac (Sample.anonymous_at 5000)
      {| p_username := None; p_password := Some "longenough1";
         p_email := "a@x.com"; p_firstName := "Ada"; p_lastName := "Byron";
         p_avatar := None |}
      (Sample.world_of [Sample.alice])
    = (Ok doc, w1)
    /\ accounts w1 = [Sample.alice; user]
    /\ verified user = true
    /\ passwordless user = false
    /\ password user = Some "$2b$10$longenough1"
    /\ doc !! "token" = Some (VJwt (signed_token Sample.hmac "k" 3600 2 5000))
    /\ doc !! "password" = None.
Proof.
  destruct (register_with_password Sample.config Sample.env Sample.bcrypt_hash
    Sample.randomBytes_hex Sample.md5_hex Sample.hmac "k" 3600
    (Sample.anonymous_at 5000)
    {| p_username := None; p_password := Some "longenough1";
       p_email := "a@x.com"; p_firstName := "Ada"; p_lastName := "Byron";
       p_avatar := None |}
    "longenough1" (Sample.world_of [Sample.alice])
    ltac:(closed) ltac:(closed) ltac:(closed) ltac:(closed)
    ltac:(discriminate) ltac:(closed) ltac:(closed))
    as (doc & w1 & user & Hrun & Hacc & Hid & _ & Hv & Hpl & Hpw & _ & _ & _ & _
        & Htok & Hnopw & _).
  exists doc, w1, user. rewrite Hid in Htok.
  repeat split; assumption.
Defined.

Lemma resetpassword_consumes_token_witness :
  exists w1 : World,
    resetpassword Sample.config Sample.env Sample.bcrypt_hash Sample.hmac
      (Sample.anonymous_at 5000) "r0" "newpassword1"
      (Sample.world_of [Sample.alice_reset])
    = (Ok {| token := signed_token Sample.hmac "k" 3600 1 5000 |}, w1)
    /\ (forall (ctx2 : Ctx) (pw2 : string),
          resetpassword Sample.config Sample.env Sample.bcrypt_hash Sample.hmac
            ctx2 "r0" pw2 w1
          = (Throw (MoleculerClientError 400 "INVALID_TOKEN"), w1))
    /\ login Sample.config Sample.env Sample.bcrypt_compare
         Sample.randomBytes_hex Sample.hmac Sample.verify2FA
         (Sample.anonymous_at 6000)
         {| l_email := "alice@x.com"; l_password := Some "newpassword1";
            l_token := None |} w1
       = (Ok (LoginToken (signed_token Sample.hmac "k" 3600 1 6000)), w1).
Proof.
  destruct (resetpassword_consumes_token Sample.config Sample.env
    Sample.bcrypt_hash Sample.bcrypt_compare Sample.randomBytes_hex Sample.hmac
    Sample.verify2FA "k" 3600 (Sample.anonymous_at 5000) "r0" "newpassword1"
    (Sample.world_of [Sample.alice_reset]) Sample.alice_reset
    ltac:(closed)
    ltac:(intros n p; apply bool_decide_eq_true_2; reflexivity)
    ltac:(closed) ltac:(closed) ltac:(closed) ltac:(closed) ltac:(closed))
    as (w1 & Hrun & _ & _ & _ & _ & _ & _ & _ & Hagain & Hlogin).
  exists w1. split; [exact Hrun|]. split; [exact Hagain|].
  apply (Hlogin (Sample.anonymous_at 6000) "alice@x.com" None);
    [closed|discriminate].
Defined.





(** ** The further properties on the sample deployment *)

Lemma verify_consumes_token_witness :
  let w := Sample.world_of [Sample.alice_unverified] in
  exists w1 : World,
    verify Sample.config Sample.env Sample.hmac (Sample.anonymous_at 5000)
      "v0" w
    = (Ok {| token := signed_token Sample.hmac "k" 3600 1 5000 |}, w1)
    /\ map verified (accounts w1) = [true]
    /\ verify Sample.config Sample.env Sample.hmac (Sample.anonymous_at 6000)
         "v0" w1
       = (Throw (MoleculerClientError 400 "INVALID_TOKEN"), w1).
Proof.
  intros w.
  destruct (verify_consumes_token Sample.config Sample.env Sample.hmac "k" 3600
    (Sample.anonymous_at 5000) "v0" w Sample.alice_unverified
    ltac:(closed) ltac:(closed) ltac:(closed)) as (H1 & _ & _ & _ & _ & H2).
  eexists. split; [exact H1|]. split; [reflexivity|]. apply H2.
Defined.

Lemma disable_enable_roundtrip_witness :
  let w := Sample.world_of [Sample.alice] in
  let w1 := Sample.world_of [Sample.alice_disabled] in
  disable (Sample.ctx_at 5000) Sample.alice w = (Ok 0, w1)
  /\ enable (Sample.ctx_at 5000) Sample.alice_disabled w1 = (Ok 1, w).
Proof.
  intros w w1.
  destruct (disable_enable_roundtrip (Sample.ctx_at 5000) w Sample.alice
    ltac:(closed) ltac:(closed)) as (H1 & _ & _ & H2 & _).
  split; [exact H1|exact H2].
Defined.

Lemma disabled_account_is_rejected_witness :
  login Sample.config Sample.env Sample.bcrypt_compare Sample.randomBytes_hex
    Sample.hmac Sample.verify2FA (Sample.anonymous_at 5000)
    {| l_email := "alice@x.com"; l_password := Some "longenough1";
       l_token := None |}
    (Sample.world_of [Sample.alice_disabled])
  = (Throw (MoleculerClientError 400 "ERR_ACCOUNT_DISABLED"),
     Sample.world_of [Sample.alice_disabled]).
Proof.
  refine (proj1 (disabled_account_is_rejected Sample.config Sample.env
    Sample.bcrypt_hash Sample.bcrypt_compare Sample.randomBytes_hex Sample.hmac
    Sample.verify2FA (Sample.anonymous_at 5000)
    (Sample.world_of [Sample.alice_disabled]) Sample.alice_disabled _) _ _ _);
    closed.
Defined.

Lemma passwordless_expiry_boundary_witness :
  let w := Sample.world_of [Sample.alice_magic_at 5000] in
  passwordless_action Sample.config Sample.env Sample.hmac
    (Sample.anonymous_at 5000) "a0" w
  = (Ok {| token := signed_token Sample.hmac "k" 3600 1 5000 |},
     after_passwordless (Sample.alice_magic_at 5000) w)
  /\ passwordless_action Sample.config Sample.env Sample.hmac
       (Sample.anonymous_at 5001) "a0" w
     = (Throw (MoleculerClientError 400 "TOKEN_EXPIRED"), w).
Proof.
  intros w. split.
  - exact (passwordless_expiry_boundary Sample.config Sample.env Sample.hmac
      "k" 3600 (Sample.anonymous_at 5000) "a0" w (Sample.alice_magic_at 5000)
      ltac:(closed) ltac:(closed) ltac:(closed) ltac:(closed)).
  - exact (passwordless_expiry_boundary Sample.config Sample.env Sample.hmac
      "k" 3600 (Sample.anonymous_at 5001) "a0" w (Sample.alice_magic_at 5000)
      ltac:(closed) ltac:(closed) ltac:(closed) ltac:(closed)).
Defined.

Lemma forgotpassword_then_resetpassword_witness :
  let w := Sample.world_of [Sample.alice] in
  exists w1 w2 : World,
    forgotpassword Sample.config Sample.env Sample.randomBytes_hex
      (Sample.anonymous_at 5000) "alice@x.com" w
    = (Ok true, w1)
    /\ resetpassword Sample.config Sample.env Sample.bcrypt_hash Sample.hmac
         (Sample.anonymous_at 6000) "a0" "newpassword1" w1
       = (Ok {| token := signed_token Sample.hmac "k" 3600 1 6000 |}, w2)
    /\ resetpassword Sample.config Sample.env Sample.bcrypt_hash Sample.hmac
         (Sample.anonymous_at 6001) "a0" "newpassword1" w1
       = (Throw (MoleculerClientError 400 "TOKEN_EXPIRED"), w1).
Proof.
  intros w.
  destruct (forgotpassword_then_resetpassword Sample.config Sample.env
    Sample.bcrypt_hash Sample.randomBytes_hex Sample.hmac "k" 3600 1000
    (Sample.anonymous_at 5000) (Sample.anonymous_at 6000) "alice@x.com"
    "newpassword1" w Sample.alice
    ltac:(closed) ltac:(closed) ltac:(closed) ltac:(closed) ltac:(closed)
    ltac:(closed) ltac:(closed)) as (H1 & H2 & _).
  destruct H2 as (w2 & H2); [vm_compute; discriminate|].
  destruct (forgotpassword_then_resetpassword Sample.config Sample.env
    Sample.bcrypt_hash Sample.randomBytes_hex Sample.hmac "k" 3600 1000
    (Sample.anonymous_at 5000) (Sample.anonymous_at 6001) "alice@x.com"
    "newpassword1" w Sample.alice
    ltac:(closed) ltac:(closed) ltac:(closed) ltac:(closed) ltac:(closed)
    ltac:(closed) ltac:(closed)) as (_ & _ & H3).
  eexists _, w2. split; [exact H1|]. split; [exact H2|].
  apply H3. reflexivity.
Defined.

Lemma reset_token_without_ttl_never_expires_witness :
  let w := Sample.world_of [Sample.alice] in
  exists w1 w2 : World,
    forgotpassword Sample.config Sample.env_nottl Sample.randomBytes_hex
      (Sample.anonymous_at 5000) "alice@x.com" w
    = (Ok true, w1)
    /\ map resetTokenExpires (accounts w1) = [JNaN]
    /\ resetpassword Sample.config Sample.env_nottl Sample.bcrypt_hash
         Sample.hmac (Sample.anonymous_at 999999999) "a0" "newpassword1" w1
       = (Ok {| token := signed_token Sample.hmac "k" 3600 1 999999999 |}, w2).
Proof.
  intros w.
  destruct (reset_token_without_ttl_never_expires Sample.config Sample.env_nottl
    Sample.bcrypt_hash Sample.randomBytes_hex Sample.hmac "k" 3600
    (Sample.anonymous_at 5000) (Sample.anonymous_at 999999999) "alice@x.com"
    "newpassword1" w Sample.alice
    ltac:(closed) ltac:(closed) ltac:(closed) ltac:(closed) ltac:(closed)
    ltac:(closed) ltac:(closed)) as (w1 & w2 & H1 & _ & H2).
  exists w1, w2. split; [exact H1|]. split; [|exact H2].
  replace w1 with (snd (forgotpassword Sample.config Sample.env_nottl
    Sample.randomBytes_hex (Sample.anonymous_at 5000) "alice@x.com" w))
    by now rewrite H1.
  reflexivity.
Defined.

Lemma forgotpassword_supersedes_token_witness :
  let w := Sample.world_of [Sample.alice] in
  exists w1 w2 : World,
    forgotpassword Sample.config Sample.env Sample.randomBytes_hex
      (Sample.anonymous_at 5000) "alice@x.com" w
    = (Ok true, w1)
    /\ forgotpassword Sample.config Sample.env Sample.randomBytes_hex
         (Sample.anonymous_at 5500) "alice@x.com" w1
       = (Ok true, w2)
    /\ resetpassword Sample.config Sample.env Sample.bcrypt_hash Sample.hmac
         (Sample.anonymous_at 6000) "a0" "newpassword1" w2
       = (Throw (MoleculerClientError 400 "INVALID_TOKEN"), w2).
Proof.
  intros w.
  exact (forgotpassword_supersedes_token Sample.config Sample.env
    Sample.bcrypt_hash Sample.randomBytes_hex Sample.hmac
    (Sample.anonymous_at 5000) (Sample.anonymous_at 5500)
    (Sample.anonymous_at 6000) "alice@x.com" "newpassword1" w Sample.alice
    ltac:(closed) ltac:(closed) ltac:(closed) ltac:(closed)
    ltac:(vm_compute; discriminate) ltac:(closed)).
Defined.

Lemma register_outcomes_witness :
  let out :=
    register Sample.config Sample.env Sample.bcrypt_hash Sample.randomBytes_hex
      Sample.md5_hex Sample.hmac (Sample.anonymous_at 5000) Sample.bob_params
      (Sample.world_of [Sample.alice]) in
  exists doc : gmap string Value,
    fst out = Ok doc
    /\ doc !! "id" = Some (VId 2)
    /\ doc !! "password" = None
    /\ map email (accounts (snd out)) = ["alice@x.com"; "bob@x.com"].
Proof.
  intros out.
  pose proof (register_outcomes Sample.config Sample.env Sample.bcrypt_hash
    Sample.randomBytes_hex Sample.md5_hex Sample.hmac (Sample.anonymous_at 5000)
    Sample.bob_params (Sample.world_of [Sample.alice]) (snd out) (fst out)
    (surjective_pairing out)) as H.
  revert H. destruct (fst out) as [doc|err] eqn:E.
  - intros (Hacc & Hid & _ & Hpw & _). exists doc.
    split; [reflexivity|]. split; [exact Hid|]. split; [exact Hpw|].
    rewrite Hacc. reflexivity.
  - vm_compute in E. discriminate E.
Defined.

Lemma register_keeps_account_when_signing_fails_witness :
  let w := Sample.world_of [Sample.alice] in
  exists w1 : World,
    register Sample.config Sample.env_nokey Sample.bcrypt_hash
      Sample.randomBytes_hex Sample.md5_hex Sample.hmac
      (Sample.anonymous_at 5000) Sample.bob_params w
    = (Throw (MoleculerRetryableError 500 "UNABLE_GENERATE_TOKEN"), w1)
    /\ map email (accounts w1) = ["alice@x.com"; "bob@x.com"]
    /\ register Sample.config Sample.env_nokey Sample.bcrypt_hash
         Sample.randomBytes_hex Sample.md5_hex Sample.hmac
         (Sample.anonymous_at 6000) Sample.bob_params w1
       = (Throw (MoleculerClientError 400 "ERR_EMAIL_EXISTS"), w1).
Proof.
  intros w.
  destruct (register_keeps_account_when_signing_fails Sample.config
    Sample.env_nokey Sample.bcrypt_hash Sample.randomBytes_hex Sample.md5_hex
    Sample.hmac (Sample.anonymous_at 5000) (Sample.anonymous_at 6000)
    Sample.bob_params Sample.bob_params w
    ltac:(closed) ltac:(closed) ltac:(closed) ltac:(closed))
    as (H1 & _ & H3).
  eexists. split; [exact H1|]. split; [reflexivity|exact H3].
Defined.

Lemma register_same_email_rejected_witness :
  let out :=
    register Sample.config Sample.env Sample.bcrypt_hash Sample.randomBytes_hex
      Sample.md5_hex Sample.hmac (Sample.anonymous_at 5000) Sample.bob_params
      (Sample.world_of [Sample.alice]) in
  register Sample.config Sample.env Sample.bcrypt_hash Sample.randomBytes_hex
    Sample.md5_hex Sample.hmac (Sample.anonymous_at 6000) Sample.bob_params
    (snd out)
  = (Throw (MoleculerClientError 400 "ERR_EMAIL_EXISTS"), snd out).
Proof.
  intros out.
  assert (E : exists doc, out = (Ok doc, snd out))
    by (vm_compute; eexists; reflexivity).
  destruct E as (doc & E).
  exact (register_same_email_rejected Sample.config Sample.env
    Sample.bcrypt_hash Sample.randomBytes_hex Sample.md5_hex Sample.hmac
    (Sample.anonymous_at 5000) (Sample.anonymous_at 6000) Sample.bob_params
    Sample.bob_params (Sample.world_of [Sample.alice]) (snd out) doc E
    eq_refl).
Defined.

Lemma register_ignores_mail_outcome_witness :
  let run (ctx : Ctx) :=
    register Sample.config Sample.env Sample.bcrypt_hash Sample.randomBytes_hex
      Sample.md5_hex Sample.hmac ctx Sample.bob_params
      (Sample.world_of [Sample.alice]) in
  fst (run (Sample.mail_down_at 5000)) = fst (run (Sample.anonymous_at 5000))
  /\ accounts (snd (run (Sample.mail_down_at 5000)))
     = accounts (snd (run (Sample.anonymous_at 5000))).
Proof.
  intros run.
  exact (register_ignores_mail_outcome Sample.config Sample.env
    Sample.bcrypt_hash Sample.randomBytes_hex Sample.md5_hex Sample.hmac
    (Sample.anonymous_at 5000) (Sample.mail_down_at 5000) Sample.bob_params
    (Sample.world_of [Sample.alice]) eq_refl).
Defined.




Lemma register_verify_login_witness :
  let w := Sample.world_of [Sample.alice] in
  let credentials :=
    {| l_email := "bob@x.com"; l_password := Some "longenough2";
       l_token := None |} in
  exists (doc : gmap string Value) (w1 w2 : World),
    register Sample.config_verify Sample.env Sample.bcrypt_hash
      Sample.randomBytes_hex Sample.md5_hex Sample.hmac
      (Sample.anonymous_at 5000) Sample.bob_params w
    = (Ok doc, w1)
    /\ doc !! "token" = None
    /\ login Sample.config_verify Sample.env Sample.bcrypt_compare
         Sample.randomBytes_hex Sample.hmac Sample.verify2FA
         (Sample.anonymous_at 6000) credentials w1
       = (Throw (MoleculerClientError 400 "ERR_ACCOUNT_NOT_VERIFIED"), w1)
    /\ verify Sample.config_verify Sample.env Sample.hmac
         (Sample.anonymous_at 6000) "a1" w1
       = (Ok {| token := signed_token Sample.hmac "k" 3600 2 6000 |}, w2)
    /\ login Sample.config_verify Sample.env Sample.bcrypt_compare
         Sample.randomBytes_hex Sample.hmac Sample.verify2FA
         (Sample.anonymous_at 7000) credentials w2
       = (Ok (LoginToken (signed_token Sample.hmac "k" 3600 2 7000)), w2).
Proof.
  intros w credentials.
  destruct (register_verify_login Sample.config_verify Sample.env
    Sample.bcrypt_hash Sample.bcrypt_compare Sample.randomBytes_hex
    Sample.md5_hex Sample.hmac Sample.verify2FA "k" 3600
    (Sample.anonymous_at 5000) (Sample.anonymous_at 6000)
    (Sample.anonymous_at 7000) Sample.bob_params "longenough2" w
    ltac:(closed)
    ltac:(intros n p; apply bool_decide_eq_true_2; reflexivity)
    ltac:(closed) ltac:(closed) ltac:(closed) ltac:(closed) ltac:(closed)
    ltac:(closed) ltac:(closed))
    as (doc & w2 & H1 & H2 & _ & H3 & H4 & H5).
  exists doc. eexists _, w2.
  split; [exact H1|]. split; [exact H2|]. split; [exact H3|].
  split; [exact H4|exact H5].
Defined.

Lemma link_then_unlink_witness :
  let w := Sample.world_of [Sample.alice] in
  exists (d1 d2 : gmap string Value) (w1 w2 : World),
    link_action (Sample.ctx_at 5000) 1 "github" Sample.octocat w
    = (Ok (Some d1), w1)
    /\ map socialLinks (accounts w1) = [{["github" := "gh1"]}]
    /\ unlink_action (Sample.ctx_at 5000) (Some 1%nat) "github" w1
       = (Ok (Some d2), w2)
    /\ w2 = w.
Proof.
  intros w.
  destruct (link_then_unlink (Sample.ctx_at 5000) 1 "github" Sample.octocat w
    Sample.alice ltac:(closed)) as (H1 & _ & _ & _ & _ & H2 & _).
  eexists _, _, _, _. split; [exact H1|]. split; [closed|].
  split; [exact H2|closed].
Defined.

Lemma link_unlink_missing_account_witness :
  link_action (Sample.ctx_at 5000) 7 "github" Sample.octocat
    (Sample.world_of [Sample.alice])
  = (Ok None, Sample.world_of [Sample.alice])
  /\ unlink_action (Sample.anonymous_at 5000) None "github"
       (Sample.world_of [Sample.alice])
     = (Throw (MoleculerClientError 400 "MISSING_USER_ID"),
        Sample.world_of [Sample.alice]).
Proof.
  split.
  - refine (proj1 (link_unlink_missing_account (Sample.ctx_at 5000) "github"
      (Sample.world_of [Sample.alice])) 7%nat Sample.octocat _); closed.
  - refine (proj1 (proj2 (link_unlink_missing_account
      (Sample.anonymous_at 5000) "github" (Sample.world_of [Sample.alice])))
      _); closed.
Defined.

Lemma socialLogin_anonymous_linked_witness :
  let w := Sample.world_of [Sample.alice_linked] in
  socialLogin Sample.config Sample.env Sample.bcrypt_hash Sample.bcrypt_genSalt
    Sample.randomBytes_hex Sample.md5_hex Sample.hmac
    (Sample.anonymous_at 5000) "github" Sample.octocat w
  = (Ok (transformDocuments
           (to_object Sample.alice_linked
              (Some (signed_token Sample.hmac "k" 3600 1 5000)))), w).
Proof.
  intros w.
  exact (socialLogin_anonymous_linked Sample.config Sample.env
    Sample.bcrypt_hash Sample.bcrypt_genSalt Sample.randomBytes_hex
    Sample.md5_hex Sample.hmac "k" 3600 (Sample.anonymous_at 5000) "github"
    Sample.octocat w Sample.alice_linked
    ltac:(closed) ltac:(closed) ltac:(closed)).
Defined.

Lemma socialLogin_links_by_email_witness :
  let w := Sample.world_of [Sample.alice] in
  exists (doc : gmap string Value) (w1 : World),
    socialLogin Sample.config Sample.env Sample.bcrypt_hash
      Sample.bcrypt_genSalt Sample.randomBytes_hex Sample.md5_hex Sample.hmac
      (Sample.anonymous_at 5000) "github" Sample.octocat w
    = (Ok doc, w1)
    /\ map (fun a => socialLinks a !! "github") (accounts w1) = [Some "gh1"]
    /\ map password (accounts w1) = map password (accounts w).
Proof.
  intros w.
  destruct (socialLogin_links_by_email Sample.config Sample.env
    Sample.bcrypt_hash Sample.bcrypt_genSalt Sample.randomBytes_hex
    Sample.md5_hex Sample.hmac "k" 3600 (Sample.anonymous_at 5000) "github"
    "alice@x.com" Sample.octocat w Sample.alice
    ltac:(closed) ltac:(closed) ltac:(closed) ltac:(closed) ltac:(closed)
    ltac:(closed) ltac:(closed) ltac:(closed)) as (H1 & _).
  eexists _, _. split; [exact H1|]. split; closed.
Defined.

Lemma socialLogin_logged_in_witness :
  let w := Sample.world_of [Sample.alice] in
  exists (doc : gmap string Value) (w1 : World),
    socialLogin Sample.config Sample.env Sample.bcrypt_hash
      Sample.bcrypt_genSalt Sample.randomBytes_hex Sample.md5_hex Sample.hmac
      (Sample.ctx_at 5000) "github" Sample.octocat w
    = (Ok doc, w1)
    /\ map (fun a => socialLinks a !! "github") (accounts w1) = [Some "gh1"].
Proof.
  intros w.
  pose proof (socialLogin_logged_in Sample.config Sample.env
    Sample.bcrypt_hash Sample.bcrypt_genSalt Sample.randomBytes_hex
    Sample.md5_hex Sample.hmac "k" 3600 (Sample.ctx_at 5000)
    {| meta_email := "alice@x.com" |} 1%nat "github" Sample.octocat w
    ltac:(closed) ltac:(closed) ltac:(closed)) as H.
  eexists _, _. split; [exact H|closed].
Defined.



Lemma enable2Fa_without_code_witness :
  let w := Sample.world_of [Sample.alice] in
  exists w1 : World,
    enable2Fa Sample.config Sample.speakeasy_generateSecret
      Sample.speakeasy_otpauthURL Sample.verify2FA (Sample.ctx_at 5000) None w
    = (Ok (Provisioned "ONSWG4TFOQ"
             "otpauth://totp/alice@x.com?secret=secret&issuer=site"), w1)
    /\ totp <$> find_first (has_id 1) (accounts w1)
       = Some (Some {| totp_enabled := false;
                       totp_secret := Some "ONSWG4TFOQ" |}).
Proof.
  intros w.
  exact (proj1 (enable2Fa_without_code Sample.config
    Sample.speakeasy_generateSecret Sample.speakeasy_otpauthURL
    Sample.verify2FA (Sample.ctx_at 5000) 1%nat
    {| meta_email := "alice@x.com" |} None w Sample.alice
    ltac:(closed) ltac:(closed) ltac:(closed) ltac:(closed)) eq_refl).
Defined.


Lemma resolveToken_of_session_token_witness :
  let w := Sample.world_of [Sample.alice] in
  let resolve (t : Z) (id : nat) :=
    resolveToken Sample.env Sample.hmac (Sample.anonymous_at t)
      (signed_token Sample.hmac "k" 3600 id 5000) w in
  resolve 6000 1%nat = (Ok (transformDocuments (to_object Sample.alice None)), w)
  /\ resolve 6000 9%nat
     = (Throw (MoleculerClientError 401 "USER_NOT_FOUND"), w)
  /\ resolve 3605000 1%nat
     = (Throw (MoleculerClientError 401 "INVALID_TOKEN"), w).
Proof.
  intros w resolve. split; [|split].
  - exact (resolveToken_of_session_token Sample.config Sample.env Sample.hmac
      "k" 3600 (Sample.anonymous_at 5000) (Sample.anonymous_at 6000) 1%nat w
      ltac:(closed)).
  - exact (resolveToken_of_session_token Sample.config Sample.env Sample.hmac
      "k" 3600 (Sample.anonymous_at 5000) (Sample.anonymous_at 6000) 9%nat w
      ltac:(closed)).
  - exact (resolveToken_of_session_token Sample.config Sample.env Sample.hmac
      "k" 3600 (Sample.anonymous_at 5000) (Sample.anonymous_at 3605000) 1%nat w
      ltac:(closed)).
Defined.

